(** * Sahadev: longitude bucketing, dasa timeline, yoga heuristics and the
      analysis fallback

    A shallow embedding of [astrology.py], [yogas.py] and the payload and
    fallback paths of [engine.py], followed by the properties the
    specification states about them.

    Modelling conventions.
    - A Python [float] is an exact rational ([Q]): [//], [%], [abs] and the
      comparisons are the exact operations, so binary64 rounding, NaN and the
      infinities are outside the model; in particular the quotients
      [30.0 / 9.0] and [360.0 / 27.0] are the exact 10/3 and 40/3.  Every
      divisor used by the source is a non-zero literal, so
      [ZeroDivisionError] never arises.
    - A Python [int] is [Z]; [int(x)] truncates towards zero.
    - A [dict] is an association list in insertion order with unique keys;
      [d.get(k)] is [Dict.get], [d[k] = v] is [Dict.set].
    - A raised exception is [None] in an [option] result; a [try/except
      Exception] block is a [match] on that option.
    - Calls into libraries that are not part of the repository (the Swiss
      Ephemeris, the OpenAI SDK, [json], [re], [datetime.isoformat]) are
      inputs: fields of an environment record or section variables. *)

From Stdlib Require Import ZArith QArith Qround Qabs Lqa Lia.
From Stdlib Require Import List String Ascii Bool DecimalString.
Import ListNotations.

Set Warnings "-register-all".
(* nested inductive types below need no generated scheme *)

Open Scope Q_scope.

(** ** Python numerics *)

Module Py.

(** [x // d] on floats. *)
Definition floordiv (x d : Q) : Q := inject_Z (Qfloor (x / d)).

(** [x % d] on floats: the remainder takes the sign of the divisor. *)
Definition mod_ (x d : Q) : Q := x - d * inject_Z (Qfloor (x / d)).

(** [int(x)]: truncation towards zero. *)
Definition int (x : Q) : Z := Z.quot (Qnum x) (Zpos (Qden x)).

Definition Qltb (x y : Q) : bool := negb (Qle_bool y x).

(** Truthiness of a number: zero is falsy. *)
Definition truthy_num (x : Q) : bool := negb (Qeq_bool x 0).

(** Round to the nearest integer, ties to even (used by [round], by
    [timedelta] and by the [.Nf] format). *)
Definition round_half_even (q : Q) : Z :=
  let f := Qfloor q in
  match Qcompare (q - inject_Z f) (1 # 2) with
  | Lt => f
  | Gt => (f + 1)%Z
  | Eq => if Z.even f then f else (f + 1)%Z
  end.

(** [round(x, nd)]. *)
Definition round (x : Q) (nd : nat) : Q :=
  let scale := inject_Z (10 ^ Z.of_nat nd) in
  inject_Z (round_half_even (x * scale)) / scale.

(** [str(n)] for an int. *)
Definition str_int (n : Z) : string := NilZero.string_of_int (Z.to_int n).

Fixpoint zeros (n : nat) : string :=
  match n with
  | O => EmptyString
  | S k => String "0"%char (zeros k)
  end.

(** [format(x, '.<nd>f')]. *)
Definition format_fixed (nd : nat) (x : Q) : string :=
  let scale := (10 ^ Z.of_nat nd)%Z in
  let n := round_half_even (Qabs x * inject_Z scale) in
  let ip := str_int (n / scale) in
  let fp := str_int (n mod scale) in
  let sign := if Qltb x 0 then "-"%string else EmptyString in
  match nd with
  | O => (sign ++ ip)%string
  | _ => (sign ++ ip ++ "." ++ zeros (nd - String.length fp) ++ fp)%string
  end.

End Py.

(** ** Dictionaries *)

Module Dict.

Section Ops.
Context {V : Type}.

Fixpoint get (d : list (string * V)) (k : string) : option V :=
  match d with
  | [] => None
  | (k', v) :: d' => if String.eqb k k' then Some v else get d' k
  end.

Definition mem (d : list (string * V)) (k : string) : bool :=
  match get d k with Some _ => true | None => false end.

(** [d[k] = v]: an existing key keeps its position, a new key goes last. *)
Fixpoint set (d : list (string * V)) (k : string) (v : V) : list (string * V) :=
  match d with
  | [] => [(k, v)]
  | (k', v') :: d' =>
      if String.eqb k k' then (k', v) :: d' else (k', v') :: set d' k v
  end.

Definition keys (d : list (string * V)) : list string := map fst d.

End Ops.

End Dict.

(** ** Chart records shared by the calculator, the detectors and the engine *)

Module Chart.

(** One planet's entry.  A field is [None] when the key is absent. *)
Record planet_info := mk_info {
  lon : option Q;
  rasi : option Z;
  degree_in_sign : option Q;
  deg : option Q
}.

(** The dict is empty (and therefore falsy) when no key is present. *)
Definition info_truthy (i : planet_info) : bool :=
  match lon i, rasi i, degree_in_sign i, deg i with
  | None, None, None, None => false
  | _, _, _, _ => true
  end.

(** [{'planets': ..., 'asc': ...}]; either key may be absent. *)
Record rasi_chart := mk_rasi {
  planets : option (list (string * planet_info));
  asc : option Q
}.

Record nav_info := mk_nav_info {
  nav_lon : Q;
  nav_sign : Z
}.

(** [{'navamsa': ...}]. *)
Record nav_chart := mk_nav {
  navamsa : option (list (string * nav_info))
}.

End Chart.

(** ** astrology.py *)

Module Astrology.
Import Chart.

(** Values handed back by the ephemeris bindings: numbers, lists and tuples
    of such, or something that is neither ([SNone]). *)
Inductive swe_value :=
| SNone
| SNum (q : Q)
| SList (l : list swe_value)
| STuple (l : list swe_value).

(** The body codes [swe.SUN .. swe.MEAN_NODE] used by [planet_positions]. *)
Inductive body := SUN | MOON | MERCURY | VENUS | MARS | JUPITER | SATURN | MEAN_NODE.

(** What the ephemeris answers for one calculator instance (fixed Julian
    day and place).  [None] stands for a call that raises. *)
Record ephemeris := mk_eph {
  calc_ut : body -> option swe_value;
  houses : option swe_value;
  houses_ex : option swe_value
}.

(** [float(v)] *)
Definition to_float (v : swe_value) : option Q :=
  match v with
  | SNum q => Some q
  | _ => None
  end.

(** [v[i]] *)
Definition getitem (v : swe_value) (i : nat) : option swe_value :=
  match v with
  | SList l | STuple l => nth_error l i
  | _ => None
  end.

Definition is_tuple (v : swe_value) : bool :=
  match v with STuple _ => true | _ => false end.

Definition is_seq (v : swe_value) : bool :=
  match v with SList _ | STuple _ => true | _ => false end.

Definition is_num (v : swe_value) : bool :=
  match v with SNum _ => true | _ => false end.

Definition items (v : swe_value) : list swe_value :=
  match v with
  | SList l | STuple l => l
  | _ => []
  end.

Definition bind {A B : Type} (o : option A) (f : A -> option B) : option B :=
  match o with
  | Some a => f a
  | None => None
  end.

Definition bodies : list (string * body) :=
  [("Sun", SUN); ("Moon", MOON); ("Mercury", MERCURY); ("Venus", VENUS);
   ("Mars", MARS); ("Jupiter", JUPITER); ("Saturn", SATURN);
   ("Rahu", MEAN_NODE)]%string.

(** The two nested [try] blocks of [planet_positions]. *)
Definition extract_lon (res : swe_value) : Q :=
  match bind (getitem res 0) to_float with
  | Some q => q
  | None =>
      match bind (bind (getitem res 0) (fun r => getitem r 0)) to_float with
      | Some q => q
      | None => 0
      end
  end.

Fixpoint planet_positions_loop (e : ephemeris) (bs : list (string * body))
  (acc : list (string * planet_info)) : option (list (string * planet_info)) :=
  match bs with
  | [] => Some acc
  | (name, code) :: bs' =>
      match calc_ut e code with
      | None => None
      | Some res =>
          let l := Py.mod_ (extract_lon res) 360 in
          planet_positions_loop e bs'
            (Dict.set acc name (mk_info (Some l) None None None))
      end
  end.

Definition planet_positions (e : ephemeris) : option (list (string * planet_info)) :=
  planet_positions_loop e bodies [].

(** The inner [for item in part] loop: the first numeric item. *)
Fixpoint first_num (l : list swe_value) : option Q :=
  match l with
  | [] => None
  | SNum q :: _ => Some q
  | _ :: l' => first_num l'
  end.

(** The outer [for part in ascmc] loop. *)
Fixpoint scan_parts (parts : list swe_value) : option Q :=
  match parts with
  | [] => None
  | part :: parts' =>
      match (if is_seq part then first_num (items part) else None) with
      | Some q => Some q
      | None => scan_parts parts'
      end
  end.

(** First [try] block of [ascendant]: [Some a] when it returns [a], [None]
    when control falls through to the second block. *)
Definition ascendant_houses (r : option swe_value) : option Q :=
  match r with
  | None => None
  | Some ascmc =>
      let single :=
        if is_seq ascmc && (1 <=? List.length (items ascmc))%nat
           && match getitem ascmc 0 with Some v => is_num v | None => false end
        then
          match bind (getitem ascmc 0) to_float with
          | Some q => Some (Py.mod_ q 360)
          | None => None
          end
        else None in
      if is_tuple ascmc && (2 <=? List.length (items ascmc))%nat then
        match scan_parts (items ascmc) with
        | Some q => Some (Py.mod_ q 360)
        | None =>
            match bind (bind (getitem ascmc 0) (fun a => getitem a 0)) to_float with
            | Some q => Some (Py.mod_ q 360)
            | None => single
            end
        end
      else single
  end.

(** Second [try] block of [ascendant]. *)
Definition ascendant_houses_ex (r : option swe_value) : option Q :=
  match r with
  | None => None
  | Some ascmc =>
      if is_tuple ascmc && (2 <=? List.length (items ascmc))%nat then
        let a :=
          match getitem ascmc 0 with
          | Some a0 => if is_seq a0 then getitem a0 0 else Some a0
          | None => None
          end in
        match bind a to_float with
        | Some q => Some (Py.mod_ q 360)
        | None => None
        end
      else None
  end.

Definition ascendant (e : ephemeris) : Q :=
  match ascendant_houses (houses e) with
  | Some a => a
  | None =>
      match ascendant_houses_ex (houses_ex e) with
      | Some a => a
      | None => 0
      end
  end.

(** [info.get('lon', 0.0)] *)
Definition lon_or (i : planet_info) (d : Q) : Q :=
  match lon i with
  | Some l => l
  | None => d
  end.

(** The body of the loop of [get_rasi_chart]:
    [info.update({'rasi': ..., 'degree_in_sign': ...})]. *)
Definition rasi_update (i : planet_info) : planet_info :=
  let l := lon_or i 0 in
  mk_info (lon i)
          (Some (Py.int (Py.floordiv l 30) + 1)%Z)
          (Some (Py.mod_ l 30))
          (deg i).

Definition get_rasi_chart (e : ephemeris) : option rasi_chart :=
  match planet_positions e with
  | None => None
  | Some ps =>
      let a := ascendant e in
      Some (mk_rasi (Some (map (fun '(p, i) => (p, rasi_update i)) ps)) (Some a))
  end.

(** [part = 30.0 / 9.0] *)
Definition part : Q := 30 / 9.





End Astrology.

(** ** yogas.py *)

Module Yogas.
Import Chart.

Definition bind {A B : Type} (o : option A) (f : A -> option B) : option B :=
  match o with
  | Some a => f a
  | None => None
  end.

Definition VIM_ORDER : list string :=
  ["Ketu"; "Venus"; "Sun"; "Moon"; "Mars"; "Rahu"; "Jupiter"; "Saturn";
   "Mercury"]%string.

Definition VIM_YEARS : list (string * Z) :=
  [("Ketu", 7); ("Venus", 20); ("Sun", 6); ("Moon", 10); ("Mars", 7);
   ("Rahu", 18); ("Jupiter", 16); ("Saturn", 19); ("Mercury", 17)]%string%Z.

(** [span = 360.0 / 27.0] *)
Definition span : Q := 360 / 27.

Definition _deg_to_nak_index (l : Q) : Z * Q :=
  let idx := (Py.int (Py.floordiv l span) mod 27)%Z in
  let fraction := Py.mod_ l span / span in
  (idx, fraction).

(** An instant, in microseconds (the resolution of [datetime]); the range
    limits of [datetime] are not modelled. *)
Definition datetime := Z.

(** [timedelta(days=d)]: the duration is rounded to a whole microsecond. *)
Definition timedelta_days (d : Q) : Z :=
  Py.round_half_even (d * inject_Z 86400000000).

Record period := mk_period {
  name : string;
  start : string;
  end_ : string;
  duration_years : Q
}.

(** The dasa dict; [remaining_years] is absent in the no-Moon answer. *)
Record dasa_timeline := mk_dasas {
  current : string;
  remaining_years : option Q;
  sequence : list period
}.

Record analysis := mk_analysis {
  yogas : list string;
  dasas : dasa_timeline
}.

(** [l.index(x)] *)
Fixpoint list_index (x : string) (l : list string) : option nat :=
  match l with
  | [] => None
  | y :: l' =>
      if String.eqb x y then Some O
      else match list_index x l' with
           | Some n => Some (S n)
           | None => None
           end
  end.

Section Dasa.

(** [datetime.isoformat] and the clock read by [datetime.utcnow()]. *)
Variable isoformat : datetime -> string.
Variable utcnow : datetime.

(** [n] rounds of the loop [for i in range(1, 7)]. *)
Fixpoint next_mahadashas (n : nat) (idx : nat) (running_start : datetime)
  : option (list period) :=
  match n with
  | O => Some []
  | S n' =>
      bind (nth_error VIM_ORDER idx) (fun lord =>
      bind (Dict.get VIM_YEARS lord) (fun dur =>
        let running_end :=
          (running_start + timedelta_days (inject_Z dur * (36525 # 100)))%Z in
        bind (next_mahadashas n' ((idx + 1) mod List.length VIM_ORDER)%nat running_end)
          (fun rest =>
             Some (mk_period lord (isoformat running_start)
                             (isoformat running_end) (inject_Z dur) :: rest))))
  end.

Definition compute_vimshottari_dasa_heuristic (moon_lon : Q)
  (birth_dt : option datetime) : option dasa_timeline :=
  let '(nak_idx, frac) := _deg_to_nak_index moon_lon in
  bind (nth_error VIM_ORDER
          (Z.to_nat (nak_idx mod Z.of_nat (List.length VIM_ORDER)))) (fun start_lord =>
  let remaining_fraction := 1 - frac in
  bind (Dict.get VIM_YEARS start_lord) (fun full_years =>
  let remaining_years := inject_Z full_years * remaining_fraction in
  bind (list_index start_lord VIM_ORDER) (fun start_index =>
  let birth := match birth_dt with Some t => t | None => utcnow end in
  let cur_start := birth in
  let cur_end := (cur_start + timedelta_days (remaining_years * (36525 # 100)))%Z in
  let first := mk_period start_lord (isoformat cur_start) (isoformat cur_end)
                         remaining_years in
  bind (next_mahadashas 6 ((start_index + 1) mod List.length VIM_ORDER)%nat cur_end)
    (fun rest =>
       Some (mk_dasas (start_lord ++ " Mahadasha (approx)")%string
                      (Some (Py.round remaining_years 3))
                      (first :: rest)))))).

End Dasa.

(** [abs((a - b + 180) % 360 - 180)] *)
Definition _angle_distance (a b : Q) : Q :=
  Qabs (Py.mod_ (a - b + 180) 360 - 180).

(** [s in (z1, z2, ...)] for a value that may be [None]. *)
Definition in_signs (s : option Z) (l : list Z) : bool :=
  match s with
  | Some v => existsb (Z.eqb v) l
  | None => false
  end.

(** The degree sign and the dash of the Neecha message, as UTF-8 bytes. *)
Definition degree_sign : string :=
  String (ascii_of_nat 194) (String (ascii_of_nat 176) EmptyString).

Definition em_dash : string :=
  String (ascii_of_nat 226)
    (String (ascii_of_nat 128) (String (ascii_of_nat 148) EmptyString)).

Definition gajakesari (p : list (string * planet_info)) : option (list string) :=
  if Dict.mem p "Jupiter" && Dict.mem p "Moon" then
    bind (bind (Dict.get p "Jupiter") lon) (fun jl =>
    bind (bind (Dict.get p "Moon") lon) (fun ml =>
      let d := _angle_distance jl ml in
      if Qle_bool d 6 || Qle_bool (Qabs (d - 120)) 6
         || Qle_bool (Qabs (d - 240)) 6
      then Some ["Gajakesari Yoga (heuristic)"%string]
      else Some []))
  else Some [].

Definition chandra_mangal (p : list (string * planet_info)) : option (list string) :=
  if Dict.mem p "Moon" && Dict.mem p "Mars" then
    bind (bind (Dict.get p "Moon") lon) (fun ml =>
    bind (bind (Dict.get p "Mars") lon) (fun rl =>
      let d := _angle_distance ml rl in
      if Qle_bool d 3 then Some ["Chandra-Mangal Yoga (heuristic)"%string]
      else Some []))
  else Some [].

Definition mahalakshmi (p : list (string * planet_info)) : list string :=
  match Dict.get p "Venus" with
  | Some v =>
      if in_signs (rasi v) [1; 5; 9]%Z
      then ["Mahalakshmi Yoga (heuristic)"%string] else []
  | None => []
  end.

Definition raja_lords : list string :=
  ["Sun"; "Moon"; "Mercury"; "Venus"; "Jupiter"; "Mars"; "Saturn"]%string.

Definition raja (p : list (string * planet_info)) : list string :=
  flat_map (fun lord =>
    match Dict.get p lord with
    | Some i =>
        if in_signs (rasi i) [1; 4; 7; 10]%Z
        then [("Possible Raja-yoga influence (" ++ lord ++ " in kendra)")%string]
        else []
    | None => []
    end) raja_lords.

(** [info.get("degree_in_sign") or (info.get("lon", 0) % 30)] *)
Definition neecha_deg (i : planet_info) : Q :=
  match degree_in_sign i with
  | Some d => if Py.truthy_num d then d else Py.mod_ (Astrology.lon_or i 0) 30
  | None => Py.mod_ (Astrology.lon_or i 0) 30
  end.

Definition neecha (p : list (string * planet_info)) : list string :=
  flat_map (fun '(nm, i) =>
    let d := neecha_deg i in
    if Py.Qltb d 2
    then [("Possible Neecha (weak) placement: " ++ nm ++ " (~"
           ++ Py.format_fixed 2 d ++ degree_sign ++ ") " ++ em_dash
           ++ " may require detailed inspection")%string]
    else []) p.

(** The final loop: keep the first occurrence of every string. *)
Fixpoint dedupe (out seen : list string) : list string :=
  match out with
  | [] => []
  | s :: out' =>
      if existsb (String.eqb s) seen then dedupe out' seen
      else s :: dedupe out' (s :: seen)
  end.

(** [rasi.get("planets", {})] *)
Definition planets_or_empty (r : rasi_chart) : list (string * planet_info) :=
  match planets r with
  | Some p => p
  | None => []
  end.

Definition detect_common_yogas (r : rasi_chart) : option (list string) :=
  let p := planets_or_empty r in
  bind (gajakesari p) (fun o1 =>
  bind (chandra_mangal p) (fun o2 =>
    let out := o1 ++ o2 ++ mahalakshmi p ++ raja p ++ neecha p in
    Some (dedupe out []))).

Definition no_moon_dasas : dasa_timeline :=
  mk_dasas "Unknown (no Moon position)" None [].

Definition analyze_chart_for_yogas_and_dasas
  (isoformat : datetime -> string) (utcnow : datetime)
  (r : rasi_chart) (nav : option nav_chart) (birth_dt : option datetime)
  : option analysis :=
  bind (detect_common_yogas r) (fun ys =>
    let moon := Dict.get (planets_or_empty r) "Moon" in
    let ds :=
      match moon with
      | Some m =>
          if info_truthy m
          then compute_vimshottari_dasa_heuristic isoformat utcnow
                 (Astrology.lon_or m 0) birth_dt
          else Some no_moon_dasas
      | None => Some no_moon_dasas
      end in
    bind ds (fun d => Some (mk_analysis ys d))).

End Yogas.

(** ** engine.py *)

Module Engine.
Import Chart.

(** JSON-like Python values: what the payload is made of and what
    [json.loads] can return. *)
Inductive pyobj :=
| ONone
| OBool (b : bool)
| OInt (z : Z)
| OFloat (q : Q)
| OStr (s : string)
| OList (l : list pyobj)
| ODict (d : list (string * pyobj)).

Definition dict := list (string * pyobj).

(** Library functions the engine calls. *)
Record library := mk_library {
  json_loads : string -> option pyobj;      (* [None]: the parser raises *)
  json_dumps : pyobj -> string;             (* with [indent=2] *)
  re_sub : string -> string -> string -> string;
  re_search : string -> string -> bool;
  str_lower : string -> string;
  float_of_str : string -> option Q;        (* [float(s)] on a string *)
  repr_other : pyobj -> string              (* [str] of floats and containers *)
}.

(** One SDK call: it raises, or it returns a response from which the text
    extractor obtains [text] (possibly [None]). *)
Inductive llm_outcome :=
| Raises
| Returns (text : option string).

Record message := mk_message {
  role : string;
  content : string
}.

(** Module state of [engine.py] and the template file on disk. *)
Record environment := mk_env {
  openai_client : option (list message -> llm_outcome);
  openai_chat_completion : option (list message -> llm_outcome);
  template_file : option string
}.

Definition of_float (o : option Q) : pyobj :=
  match o with Some q => OFloat q | None => ONone end.

Definition of_int (o : option Z) : pyobj :=
  match o with Some z => OInt z | None => ONone end.

(** [info.get("degree_in_sign") or info.get("deg")] *)
Definition deg_or (i : planet_info) : pyobj :=
  match degree_in_sign i with
  | Some d => if Py.truthy_num d then OFloat d else of_float (deg i)
  | None => of_float (deg i)
  end.

Definition of_nav_info (n : nav_info) : pyobj :=
  ODict [("lon", OFloat (nav_lon n)); ("nav_sign", OInt (nav_sign n))]%string.

(** The value built for one planet by the dict comprehension. *)
Definition of_planet_info (info : planet_info) : pyobj :=
  ODict [("lon", of_float (lon info));
         ("rasi", of_int (rasi info));
         ("deg", deg_or info)]%string.

Definition format_structured (r : rasi_chart) (nav : nav_chart) (meta : pyobj)
  : dict :=
  [("meta", meta);
   ("rasi",
    ODict (map (fun '(p, info) => (p, of_planet_info info))
               (Yogas.planets_or_empty r)));
   ("asc", of_float (asc r));
   ("navamsa",
    match navamsa nav with
    | Some n => ODict (map (fun '(p, i) => (p, of_nav_info i)) n)
    | None => ONone
    end)]%string.

(** Rendering of the heuristic analysis when it is merged into the payload
    (int durations are held as rationals). *)
Definition of_period (p : Yogas.period) : pyobj :=
  ODict [("name", OStr (Yogas.name p)); ("start", OStr (Yogas.start p));
         ("end", OStr (Yogas.end_ p));
         ("duration_years", OFloat (Yogas.duration_years p))]%string.

Definition of_dasas (d : Yogas.dasa_timeline) : pyobj :=
  ODict ([("current", OStr (Yogas.current d))]%string
         ++ match Yogas.remaining_years d with
            | Some y => [("remaining_years", OFloat y)]%string
            | None => []
            end
         ++ [("sequence", OList (map of_period (Yogas.sequence d)))]%string).

(** streamlit_app.py: the payload the submit handler sends to the engine,
    [format_structured(...)] with the keys [yogas] and [dasas] set. *)
Definition structured_payload (r : rasi_chart) (nav : nav_chart) (meta : pyobj)
  (a : Yogas.analysis) : dict :=
  let structured := format_structured r nav meta in
  let structured := Dict.set structured "yogas" (OList (map OStr (Yogas.yogas a))) in
  Dict.set structured "dasas" (of_dasas (Yogas.dasas a)).

(** Truthiness. *)
Definition truthy (o : pyobj) : bool :=
  match o with
  | ONone => false
  | OBool b => b
  | OInt z => negb (z =? 0)%Z
  | OFloat q => Py.truthy_num q
  | OStr s => negb (String.eqb s EmptyString)
  | OList l => match l with [] => false | _ => true end
  | ODict d => match d with [] => false | _ => true end
  end.

Definition is_none (o : pyobj) : bool :=
  match o with ONone => true | _ => false end.

Definition dq : string := String (ascii_of_nat 34) EmptyString.
Definition nl : string := String (ascii_of_nat 10) EmptyString.

(** ** Strings *)

Fixpoint find_char (c : ascii) (s : string) : option nat :=
  match s with
  | EmptyString => None
  | String ch s' =>
      if Ascii.eqb ch c then Some O
      else match find_char c s' with
           | Some n => Some (S n)
           | None => None
           end
  end.

(** [needle in hay] *)
Fixpoint contains (needle hay : string) : bool :=
  match hay with
  | EmptyString => String.prefix needle hay
  | String _ hay' => String.prefix needle hay || contains needle hay'
  end.

(** [s.replace(old, new)] for a non-empty [old]; [skip] counts the
    characters of a match still to be dropped. *)
Fixpoint replace_from (old new s : string) (skip : nat) : string :=
  match s with
  | EmptyString => EmptyString
  | String c s' =>
      match skip with
      | S k => replace_from old new s' k
      | O =>
          if String.prefix old s
          then (new ++ replace_from old new s' (String.length old - 1))%string
          else String c (replace_from old new s' O)
      end
  end.

Definition replace (old new s : string) : string := replace_from old new s O.

Definition strip_chars : list ascii :=
  ["`"; " "; ascii_of_nat 10; ascii_of_nat 13; ascii_of_nat 9]%char.

Fixpoint lstrip (l : list ascii) : list ascii :=
  match l with
  | c :: l' => if existsb (Ascii.eqb c) strip_chars then lstrip l' else l
  | [] => []
  end.

(** [s.strip("` \n\r\t")] *)
Definition strip (s : string) : string :=
  string_of_list_ascii
    (rev (lstrip (rev (lstrip (list_ascii_of_string s))))).

(** The brace-counting loop, started at the first opening brace: the length
    of the balanced candidate, if the braces close. *)
Fixpoint scan_depth (s : string) (depth : Z) (len : nat) : option nat :=
  match s with
  | EmptyString => None
  | String ch s' =>
      if Ascii.eqb ch "{"%char then scan_depth s' (depth + 1)%Z (S len)
      else if Ascii.eqb ch "}"%char then
        if (depth - 1 =? 0)%Z then Some (S len)
        else scan_depth s' (depth - 1)%Z (S len)
      else scan_depth s' depth (S len)
  end.

Section WithLibrary.
Variable lib : library.

Definition _extract_json_from_text (text : string) : pyobj :=
  if String.eqb text EmptyString then ONone
  else
    match json_loads lib text with
    | Some v => v
    | None =>
        match find_char "{"%char text with
        | None => ONone
        | Some start =>
            let tail := substring start (String.length text - start) text in
            match scan_depth tail 0 O with
            | None => ONone
            | Some n =>
                let candidate := substring 0 n tail in
                let cleaned := re_sub lib ",\s*}" "}" candidate in
                let cleaned := re_sub lib ",\s*]" "]" cleaned in
                let cleaned := strip cleaned in
                match json_loads lib cleaned with
                | Some v => v
                | None => ONone
                end
            end
        end
    end.

Definition fallback_template : string :=
  ("You are an experienced Vedic astrologer. Reply in JSON only with keys: "
   ++ "{" ++ dq ++ "headline" ++ dq ++ ":" ++ dq ++ dq ++ ","
   ++ dq ++ "bullets" ++ dq ++ ":[],"
   ++ dq ++ "narrative" ++ dq ++ ":" ++ dq ++ dq ++ ","
   ++ dq ++ "yogas" ++ dq ++ ":[],"
   ++ dq ++ "dasas" ++ dq ++ ":{}}." ++ nl ++ nl
   ++ "Please analyze the following chart. Input:" ++ nl ++ "{input}" ++ nl)%string.

Definition _load_prompt_template (env : environment) (lang : string) : string :=
  match template_file env with
  | Some t => t
  | None =>
      if negb (String.eqb lang EmptyString) && String.prefix "ta" lang
      then fallback_template
      else fallback_template
  end.

Definition _build_prompt (env : environment) (structured : dict) (lang : string)
  : string :=
  let template := _load_prompt_template env lang in
  let s := json_dumps lib (ODict structured) in
  if contains "{{ structured_data }}" template
  then replace "{{ structured_data }}" s template
  else if contains "{input}" template
  then replace "{input}" s template
  else (template ++ nl ++ nl ++ "JSON_INPUT:" ++ nl ++ s)%string.

Definition ask_patterns : list string :=
  ["please provide.*structured.*json";
   "please provide.*json";
   "please provide the chart json";
   "send me the json";
   "i need the json";
   "provide the structured json"]%string.

Definition _model_requests_json (text : string) : bool :=
  if String.eqb text EmptyString then false
  else
    let t := str_lower lib text in
    existsb (fun p => re_search lib p t) ask_patterns.

Definition _call_llm (env : environment) (messages : list message)
  : option string :=
  let old_style :=
    match openai_chat_completion env with
    | Some create =>
        match create messages with
        | Returns text => text
        | Raises => None
        end
    | None => None
    end in
  match openai_client env with
  | Some create =>
      match create messages with
      | Returns text => text
      | Raises => old_style
      end
  | None => old_style
  end.

(** [float(x)] *)
Definition to_float (o : pyobj) : option Q :=
  match o with
  | OInt z => Some (inject_Z z)
  | OFloat q => Some q
  | OBool b => Some (if b then 1 else 0)
  | OStr s => float_of_str lib s
  | _ => None
  end.

(** [str(x)], as the f-string renders [{r}]. *)
Definition py_str (o : pyobj) : string :=
  match o with
  | ONone => "None"
  | OBool true => "True"
  | OBool false => "False"
  | OInt z => Py.str_int z
  | OStr s => s
  | _ => repr_other lib o
  end.

(** [format(x, '.1f')]: defined on numbers only. *)
Definition format_1f (o : pyobj) : option string :=
  match o with
  | OInt z => Some (Py.format_fixed 1 (inject_Z z))
  | OFloat q => Some (Py.format_fixed 1 q)
  | OBool b => Some (Py.format_fixed 1 (if b then 1 else 0))
  | _ => None
  end.

(** [d.get(k, default)] *)
Definition get_or (d : dict) (k : string) (default : pyobj) : pyobj :=
  match Dict.get d k with
  | Some v => v
  | None => default
  end.

(** The mis-encoded degree sign of the bullet text, as its UTF-8 bytes. *)
Definition bullet_suffix : string :=
  String (ascii_of_nat 195) (String (ascii_of_nat 130)
    (String (ascii_of_nat 194) (String (ascii_of_nat 176) EmptyString))).

(** One round of the loop of [_fallback_text]: the bullet for planet [p]
    with entry [info], or the exception of the [.1f] format. *)
Definition fallback_bullet (p : string) (info : dict) : option string :=
  let r := get_or info "rasi" ONone in
  let deg := get_or info "deg" ONone in
  let deg :=
    if is_none deg then
      match to_float (get_or info "lon" (OInt 0)) with
      | Some l => OFloat (Py.mod_ l 30)
      | None => OFloat 0
      end
    else deg in
  match format_1f deg with
  | None => None
  | Some ds =>
      Some (p ++ ": sign " ++ py_str r ++ ", " ++ ds ++ bullet_suffix)%string
  end.

(** The loop of [_fallback_text] over [rasi.items()]. *)
Fixpoint fallback_bullets (entries : list (string * pyobj)) (bullets : list string)
  : option (list string) :=
  match entries with
  | [] => Some bullets
  | (p, ODict info) :: rest =>
      match fallback_bullet p info with
      | None => None
      | Some b =>
          let bullets := bullets ++ [b] in
          if (6 <=? List.length bullets)%nat then Some bullets
          else fallback_bullets rest bullets
      end
  | _ :: _ => None
  end.

Definition headline : string := "Basic horoscope overview (local fallback)".

Definition _fallback_text (structured : dict) : option pyobj :=
  match get_or structured "rasi" (ODict []) with
  | ODict entries =>
      match fallback_bullets entries [] with
      | None => None
      | Some bullets =>
          let narrative :=
            (headline ++ nl ++ nl ++ "Key placements: "
             ++ String.concat "; " bullets ++ "." ++ nl ++ nl
             ++ "This is an automated fallback reading.")%string in
          Some (ODict [("headline", OStr headline);
                       ("bullets", OList (map OStr bullets));
                       ("narrative", OStr narrative);
                       ("yogas", OList []);
                       ("dasas", ODict [])]%string)
      end
  | _ => None
  end.

Definition system_message : message :=
  mk_message "system"
    "You are an expert Vedic astrologer and write in a culturally sensitive manner.".

(** [a or b] on an optional string and a string. *)
Definition str_or (a : option string) (b : string) : string :=
  match a with
  | Some s => if String.eqb s EmptyString then b else s
  | None => b
  end.

Definition generate_analysis (env : environment) (structured_payload : dict)
  (lang : string) : option pyobj :=
  let prompt := _build_prompt env structured_payload lang in
  let messages := [system_message; mk_message "user" prompt] in
  let text := _call_llm env messages in
  let parsed := _extract_json_from_text (str_or text EmptyString) in
  if truthy parsed then Some parsed
  else
    match text with
    | Some t =>
        if negb (String.eqb t EmptyString)
           && (_model_requests_json t || is_none parsed)
        then
          let injected_prompt :=
            ("Proceed using the following structured JSON (do not ask for it again). "
             ++ "Use it to produce JSON with keys: headline, bullets, narrative, yogas, dasas."
             ++ nl ++ nl ++ json_dumps lib (ODict structured_payload))%string in
          let messages_retry := [system_message; mk_message "user" injected_prompt] in
          let text2 := _call_llm env messages_retry in
          let parsed2 := _extract_json_from_text (str_or text2 EmptyString) in
          if truthy parsed2 then Some parsed2
          else
            Some (ODict [("narrative",
                          OStr (str_or text2 (str_or text
                                  "LLM produced no usable output.")))]%string)
        else _fallback_text structured_payload
    | None => _fallback_text structured_payload
    end.

End WithLibrary.

(** No model is reachable: a configured client raises on every call. *)
Definition llm_unreachable (env : environment) : Prop :=
  match openai_client env with
  | Some create => forall m, create m = Raises
  | None => True
  end /\
  match openai_chat_completion env with
  | Some create => forall m, create m = Raises
  | None => True
  end.

End Engine.

(** ** astrology.py: the hour handed to [swe.julday] *)

Module Calendar.





End Calendar.

(** ** charts/north_renderer.py and charts/south_renderer.py: the
       computations that decide what is drawn where *)

Module Renderer.
Import Chart.

(** The numbers [d] and [m] of [_deg_min_str]. *)
Definition deg_min (deg_float : Q) : Z * Z :=
  let d := Py.int deg_float in
  let m := Py.round_half_even ((deg_float - inject_Z d) * 60) in
  (d, m).

(** [format(m, '02d')] *)
Definition format_02d (m : Z) : string :=
  if (m <? 0)%Z then Py.str_int m
  else (Py.zeros (2 - String.length (Py.str_int m)) ++ Py.str_int m)%string.

(** The mis-encoded degree sign of the label, as its UTF-8 bytes. *)
Definition degree_bytes : string :=
  String (ascii_of_nat 195) (String (ascii_of_nat 130)
    (String (ascii_of_nat 194) (String (ascii_of_nat 176) EmptyString))).

Definition _deg_min_str (deg_float : Q) : string :=
  let '(d, m) := deg_min deg_float in
  (Py.str_int d ++ degree_bytes ++ format_02d m ++ "'")%string.

(** [asc_sign = int((asc // 30) % 12) + 1] of both renderers. *)
Definition asc_sign (asc : Q) : Z :=
  (Py.int (Py.mod_ (Py.floordiv asc 30) 12) + 1)%Z.

(** [info.get("rasi") or int(lon // 30) + 1]: an absent or zero sign is
    recomputed from the longitude (both renderers). *)
Definition sign_of (i : planet_info) : Z :=
  let computed := (Py.int (Py.floordiv (Astrology.lon_or i 0) 30) + 1)%Z in
  match rasi i with
  | Some r => if (r =? 0)%Z then computed else r
  | None => computed
  end.

(** [info.get("degree_in_sign") or (lon % 30)] *)
Definition deg_of (i : planet_info) : Q :=
  match degree_in_sign i with
  | Some d => if Py.truthy_num d then d else Py.mod_ (Astrology.lon_or i 0) 30
  | None => Py.mod_ (Astrology.lon_or i 0) 30
  end.

(** [{i: [] for i in range(1, 13)}] *)
Definition empty_boxes : list (Z * list (string * Q)) :=
  map (fun s => (s, [])) [1; 2; 3; 4; 5; 6; 7; 8; 9; 10; 11; 12]%Z.

(** [sign_to_planets[r].append(x)]; [None] is the [KeyError]. *)
Fixpoint box_append (boxes : list (Z * list (string * Q))) (r : Z)
  (x : string * Q) : option (list (Z * list (string * Q))) :=
  match boxes with
  | [] => None
  | (s, items) :: boxes' =>
      if (s =? r)%Z then Some ((s, items ++ [x]) :: boxes')
      else match box_append boxes' r x with
           | Some b => Some ((s, items) :: b)
           | None => None
           end
  end.

(** The loop that maps planets to signs. *)
Fixpoint fill_boxes (ps : list (string * planet_info))
  (boxes : list (Z * list (string * Q))) : option (list (Z * list (string * Q))) :=
  match ps with
  | [] => Some boxes
  | (p, i) :: ps' =>
      match box_append boxes (sign_of i) (p, deg_of i) with
      | Some b => fill_boxes ps' b
      | None => None
      end
  end.

Definition sign_to_planets (r : rasi_chart) : option (list (Z * list (string * Q))) :=
  fill_boxes (Yogas.planets_or_empty r) empty_boxes.

(** The planets a renderer would list in box [s], in chart order. *)
Definition planets_in (s : Z) (ps : list (string * planet_info))
  : list (string * Q) :=
  flat_map (fun '(p, i) => if (sign_of i =? s)%Z then [(p, deg_of i)] else []) ps.

(** The characters that [str.split()] and [str.strip()] treat as white
    space, among the ASCII ones: tab to carriage return, the four
    separators 28..31 and the blank. *)
Definition is_space (c : ascii) : bool :=
  let n := nat_of_ascii c in
  (((9 <=? n) && (n <=? 13)) || ((28 <=? n) && (n <=? 32)))%nat.

Fixpoint lstrip_ws (l : list ascii) : list ascii :=
  match l with
  | c :: l' => if is_space c then lstrip_ws l' else l
  | [] => []
  end.

(** [s.strip()] *)
Definition strip_ws (s : string) : string :=
  string_of_list_ascii
    (rev (lstrip_ws (rev (lstrip_ws (list_ascii_of_string s))))).

(** What the line test adds for the blank: [1 if cur else 0] in the north
    renderer, [1] in the south renderer. *)
Definition gap (south : bool) (cur : string) : nat :=
  if south then 1%nat
  else match cur with EmptyString => 0%nat | _ => 1%nat end.

(** The loop of [_wrap_lines]: the lines so far and the line being built. *)
Fixpoint wrap_loop (south : bool) (max_chars : Z) (words : list string)
  (cur : string) (lines : list string) : list string * string :=
  match words with
  | [] => (lines, cur)
  | w :: words' =>
      if (Z.of_nat (String.length cur + String.length w + gap south cur)
          <=? max_chars)%Z
      then wrap_loop south max_chars words' (strip_ws (cur ++ " " ++ w)) lines
      else wrap_loop south max_chars words' w (lines ++ [cur])
  end.

(** [_wrap_lines] of the north ([south = false]) and of the south renderer,
    on [words = text.split()]. *)
Definition _wrap_lines (south : bool) (words : list string) (max_chars : Z)
  : list string :=
  let '(lines, cur) := wrap_loop south max_chars words "" [] in
  match cur with
  | EmptyString => lines
  | _ => lines ++ [cur]
  end.

(** What [text.split()] returns: words that are not empty and hold no white
    space. *)
Definition word (w : string) : bool :=
  match w with
  | EmptyString => false
  | _ => forallb (fun c => negb (is_space c)) (list_ascii_of_string w)
  end.

End Renderer.

(** ** Vocabulary for statements about engine.py *)

Module EngineSpec.
Import Chart.

(** The number of occurrences of a character. *)
Fixpoint count_char (c : ascii) (s : string) : Z :=
  match s with
  | EmptyString => 0%Z
  | String ch s' => ((if Ascii.eqb ch c then 1 else 0) + count_char c s')%Z
  end.

(** Open braces minus closing braces. *)
Definition brace_balance (s : string) : Z :=
  (count_char "{"%char s - count_char "}"%char s)%Z.

(** The degree the fallback text is expected to show for a chart entry: the
    stored "degree_in_sign" unless it is zero, else the stored "deg", else
    the longitude modulo 30, else 0. *)
Definition shown_degree (i : planet_info) : Q :=
  let alt :=
    match deg i with
    | Some d' => d'
    | None =>
        match lon i with
        | Some l => Py.mod_ l 30
        | None => 0
        end
    end in
  match degree_in_sign i with
  | Some d => if Py.truthy_num d then d else alt
  | None => alt
  end.

(** The bullet the fallback text is expected to show: the planet, its sign
    as [str] prints it ("None" when absent) and the degree with one
    decimal. *)
Definition expected_bullet (p : string) (i : planet_info) : string :=
  (p ++ ": sign "
   ++ match rasi i with
      | Some z => Py.str_int z
      | None => "None"
      end
   ++ ", " ++ Py.format_fixed 1 (shown_degree i)
   ++ Engine.bullet_suffix)%string.

End EngineSpec.

(** ** Vocabulary for statements about the renderers *)

Module RendererSpec.

(** A list of characters that [lstrip_ws] leaves alone. *)
Definition starts_ok (l : list ascii) : Prop :=
  match l with
  | [] => False
  | c :: _ => Renderer.is_space c = false
  end.

(** A string that is not empty and neither starts nor ends in white space. *)
Definition clean (s : string) : Prop :=
  starts_ok (list_ascii_of_string s) /\
  starts_ok (rev (list_ascii_of_string s)).

(** A group of words fits when its line has at most [max_chars] characters
    or it has at most one word. *)
Definition fits (max_chars : Z) (g : list string) : Prop :=
  (Z.of_nat (String.length (String.concat " " g)) <= max_chars)%Z \/
  (List.length g <= 1)%nat.

End RendererSpec.

(** ** Sample inputs *)

Module Samples.
Import Chart Astrology.

(** An ephemeris whose answers come in the shapes the calculator probes:
    a flat tuple, a nested tuple, a non-sequence, a bare number, a list with
    a negative longitude and a longitude above 360. *)
Definition eph : ephemeris :=
  mk_eph (fun b =>
            match b with
            | SUN => Some (STuple [SNum (455 # 10); SNum 0; SNum 1])
            | MOON => Some (STuple [STuple [SNum 40; SNum 0]; SNum 0])
            | MERCURY => Some SNone
            | VENUS => Some (SNum 3)
            | MARS => Some (SList [SNum (-10)])
            | JUPITER => Some (STuple [SNum 725])
            | SATURN => Some (STuple [SNum (3599 # 10)])
            | MEAN_NODE => Some (STuple [SNum 121])
            end)
         (Some (STuple [STuple [SNone; SNum 100]; SList [SNum 5]]))
         None.


(** A chart without a Moon entry: Venus in sign 5, Saturn at the very
    start of sign 10, and a planet that carries no key at all. *)
Definition moonless : rasi_chart :=
  mk_rasi
    (Some [("Venus", mk_info (Some 135) (Some 5%Z) (Some 15) None);
           ("Saturn", mk_info (Some 270) (Some 10%Z) (Some 0) None);
           ("Ketu", mk_info None None None None)]%string)
    (Some (1234 # 10)).

Definition nav : nav_chart :=
  mk_nav (Some [("Venus", mk_nav_info 135 6%Z)]%string).

(** What [ChartCalculator.metadata] hands to the engine. *)
Definition meta : Engine.pyobj :=
  Engine.ODict [("datetime", Engine.OStr "1996-10-15T17:55:00+05:30");
                ("lat", Engine.OFloat (1308 # 100));
                ("lon", Engine.OFloat (8027 # 100));
                ("tz", Engine.OStr "Asia/Kolkata")]%string.

Definition no_moon_analysis : Yogas.analysis :=
  Yogas.mk_analysis
    ["Mahalakshmi Yoga (heuristic)"]%string Yogas.no_moon_dasas.

(** A library whose functions do nothing useful, and two environments in
    which no model answers: nothing configured, and a client that raises
    with an old-style module that raises as well. *)
Definition inert_library : Engine.library :=
  Engine.mk_library (fun _ => None) (fun _ => EmptyString)
    (fun _ _ s => s) (fun _ _ => false) (fun s => s) (fun _ => None)
    (fun _ => EmptyString).

Definition offline : Engine.environment :=
  Engine.mk_env None None None.

Definition failing : Engine.environment :=
  Engine.mk_env (Some (fun _ => Engine.Raises))
                (Some (fun _ => Engine.Raises))
                (Some "{{ structured_data }}"%string).

End Samples.

(** ** More sample inputs *)

Module Cases.


(** A chart whose Mars entry carries a sign outside 1..12. *)
Definition stray_sign : Chart.rasi_chart :=
  Chart.mk_rasi
    (Some [("Sun", Chart.mk_info (Some 10) (Some 1%Z) (Some 10) None);
           ("Mars", Chart.mk_info (Some 400) (Some 14%Z) (Some 10) None)]%string)
    None.

End Cases.

(** * Properties *)

Import Chart.

(** ** Floor division and remainder on rationals *)

Lemma int_of_integer (z : Z) : Py.int (inject_Z z) = z.
Proof. unfold Py.int; simpl. apply Z.quot_1_r. Qed.

Lemma int_floordiv (x d : Q) : Py.int (Py.floordiv x d) = Qfloor (x / d).
Proof. unfold Py.floordiv. apply int_of_integer. Qed.

Lemma floor_div_lower (x d : Q) :
  0 < d -> d * inject_Z (Qfloor (x / d)) <= x.
Proof.
  intros Hd. pose proof (Qfloor_le (x / d)) as H.
  apply (Qmult_le_l _ _ d Hd) in H.
  rewrite Qmult_div_r in H by lra. exact H.
Qed.

Lemma floor_div_upper (x d : Q) :
  0 < d -> x < d * (inject_Z (Qfloor (x / d)) + 1).
Proof.
  intros Hd. pose proof (Qlt_floor (x / d)) as H.
  rewrite inject_Z_plus in H.
  apply (Qmult_lt_l _ _ d Hd) in H.
  rewrite Qmult_div_r in H by lra. exact H.
Qed.

(** Two integers whose [d]-multiples bracket the same number coincide. *)
Lemma bracket_unique (x d : Q) (j k : Z) :
  0 < d ->
  d * inject_Z j <= x -> x < d * (inject_Z j + 1) ->
  d * inject_Z k <= x -> x < d * (inject_Z k + 1) ->
  j = k.
Proof.
  intros Hd Lj Uj Lk Uk.
  assert (A : inject_Z j < inject_Z k + 1)
    by (apply (Qmult_lt_l _ _ d Hd); lra).
  assert (B : inject_Z k < inject_Z j + 1)
    by (apply (Qmult_lt_l _ _ d Hd); lra).
  change 1 with (inject_Z 1) in A, B.
  rewrite <- inject_Z_plus in A, B.
  rewrite <- Zlt_Qlt in A, B. lia.
Qed.

Lemma floor_div_unique (x d : Q) (k : Z) :
  0 < d -> d * inject_Z k <= x -> x < d * (inject_Z k + 1) ->
  Qfloor (x / d) = k.
Proof.
  intros Hd Lk Uk.
  apply (bracket_unique x d); auto using floor_div_lower, floor_div_upper.
Qed.

Lemma mod_bounds (x d : Q) : 0 < d -> 0 <= Py.mod_ x d /\ Py.mod_ x d < d.
Proof.
  intros Hd. unfold Py.mod_.
  pose proof (floor_div_lower x d Hd).
  pose proof (floor_div_upper x d Hd).
  split; lra.
Qed.

(** A number in [[0, d*n)] falls in one of the [n] buckets [0 .. n-1]. *)
Lemma floor_div_range (x d : Q) (n : Z) :
  0 < d -> 0 <= x -> x < d * inject_Z n ->
  (0 <= Qfloor (x / d) <= n - 1)%Z.
Proof.
  intros Hd H0 Hn.
  pose proof (floor_div_lower x d Hd) as L.
  pose proof (floor_div_upper x d Hd) as U.
  set (f := Qfloor (x / d)) in *.
  assert (A : inject_Z 0 < inject_Z f + 1).
  { apply (Qmult_lt_l _ _ d Hd). change (inject_Z 0) with 0. lra. }
  assert (B : inject_Z f < inject_Z n).
  { apply (Qmult_lt_l _ _ d Hd). lra. }
  change 1 with (inject_Z 1) in A.
  rewrite <- inject_Z_plus in A.
  rewrite <- Zlt_Qlt in A, B. lia.
Qed.

(** ** astrology.py *)

Import Astrology.

(** What [planet_positions] stores for one ephemeris answer. *)
Lemma planet_positions_shape (e : ephemeris) (ps : list (string * planet_info)) :
  planet_positions e = Some ps ->
  exists rs, map (fun b => calc_ut e (snd b)) bodies = map Some rs /\
    ps = map (fun '(b, r) =>
                (fst b, mk_info (Some (Py.mod_ (extract_lon r) 360)) None None None))
             (combine bodies rs).
Proof.
  unfold planet_positions, bodies; simpl.
  destruct (calc_ut e SUN) as [r1|]; [|discriminate].
  destruct (calc_ut e MOON) as [r2|]; [|discriminate].
  destruct (calc_ut e MERCURY) as [r3|]; [|discriminate].
  destruct (calc_ut e VENUS) as [r4|]; [|discriminate].
  destruct (calc_ut e MARS) as [r5|]; [|discriminate].
  destruct (calc_ut e JUPITER) as [r6|]; [|discriminate].
  destruct (calc_ut e SATURN) as [r7|]; [|discriminate].
  destruct (calc_ut e MEAN_NODE) as [r8|]; [|discriminate].
  intros H; injection H as <-.
  exists [r1; r2; r3; r4; r5; r6; r7; r8]. split; reflexivity.
Qed.

Lemma sign_props (l : Q) :
  0 <= l -> l < 360 ->
  (1 <= Qfloor (l / 30) + 1 <= 12)%Z /\
  0 <= Py.mod_ l 30 /\ Py.mod_ l 30 < 30 /\
  l == 30 * inject_Z (Qfloor (l / 30)) + Py.mod_ l 30.
Proof.
  intros H0 H1.
  assert (R : (0 <= Qfloor (l / 30) <= 12 - 1)%Z).
  { apply floor_div_range; [lra | assumption |].
    change (inject_Z 12) with 12. lra. }
  destruct (mod_bounds l 30) as [A B]; [lra|].
  repeat split; try lia; auto.
  unfold Py.mod_. ring.
Qed.

(** C1: for every longitude [l] in [[0, 360)] stored by [planet_positions],
    [get_rasi_chart] keeps [l] as the planet's [lon], sets [rasi] to
    [floor(l/30) + 1], which lies in 1..12, and sets [degree_in_sign] to
    [l mod 30], which lies in [[0, 30)] and satisfies
    [l = 30 * floor(l/30) + degree_in_sign]. *)
Theorem get_rasi_chart_sign_and_degree
  (e : ephemeris) (ps : list (string * planet_info)) :
  planet_positions e = Some ps ->
  exists ps',
    get_rasi_chart e = Some (mk_rasi (Some ps') (Some (ascendant e))) /\
    Forall2
      (fun a b =>
         fst b = fst a /\
         forall l, lon (snd a) = Some l -> 0 <= l -> l < 360 ->
           lon (snd b) = Some l /\
           rasi (snd b) = Some (Qfloor (l / 30) + 1)%Z /\
           (1 <= Qfloor (l / 30) + 1 <= 12)%Z /\
           degree_in_sign (snd b) = Some (Py.mod_ l 30) /\
           0 <= Py.mod_ l 30 /\ Py.mod_ l 30 < 30 /\
           l == 30 * inject_Z (Qfloor (l / 30)) + Py.mod_ l 30)
      ps ps'.
Proof.
  intros Hps. unfold get_rasi_chart. rewrite Hps.
  eexists; split; [reflexivity|].
  clear Hps. induction ps as [|[p i] ps IH]; cbn [map]; constructor; auto.
  cbn [fst snd]; split; [reflexivity|].
  intros l Hl H0 H1.
  destruct (sign_props l H0 H1) as (R & A & B & D).
  unfold rasi_update, lon_or; rewrite Hl.
  cbn [snd lon rasi degree_in_sign].
  rewrite int_floordiv. repeat split; auto; lia.
Qed.

Lemma get_rasi_chart_sign_and_degree_witness :
  exists ps ps',
    planet_positions Samples.eph = Some ps /\
    get_rasi_chart Samples.eph
    = Some (mk_rasi (Some ps') (Some (ascendant Samples.eph))) /\
    Forall2
      (fun a b =>
         fst b = fst a /\
         forall l, lon (snd a) = Some l -> 0 <= l -> l < 360 ->
           lon (snd b) = Some l /\
           rasi (snd b) = Some (Qfloor (l / 30) + 1)%Z /\
           (1 <= Qfloor (l / 30) + 1 <= 12)%Z /\
           degree_in_sign (snd b) = Some (Py.mod_ l 30) /\
           0 <= Py.mod_ l 30 /\ Py.mod_ l 30 < 30 /\
           l == 30 * inject_Z (Qfloor (l / 30)) + Py.mod_ l 30)
      ps ps'.
Proof.
  destruct (planet_positions Samples.eph) as [ps|] eqn:E;
    [|vm_compute in E; discriminate].
  destruct (get_rasi_chart_sign_and_degree Samples.eph ps E) as (ps' & H1 & H2).
  exists ps, ps'. auto.
Defined.








(** ** yogas.py *)

Import Yogas.










Section DasaFacts.
Variable isoformat : datetime -> string.
Variable utcnow : datetime.



End DasaFacts.





(** ** Fallbacks of the calculator *)








(** ** The yoga and dasa analysis without a Moon *)

Lemma mem_of_get {V : Type} (d : list (string * V)) (k : string) :
  Dict.get d k = None -> Dict.mem d k = false.
Proof. unfold Dict.mem. now intros ->. Qed.

(** C10: when the planets mapping has no ["Moon"] entry, the analysis
    raises nothing: its dasas are
    [{'current': 'Unknown (no Moon position)', 'sequence': []}] and its yogas
    are those of [detect_common_yogas], which here are the Venus, kendra and
    weak-placement findings on the planets that are present. *)
Theorem analysis_without_moon
  (isoformat : datetime -> string) (utcnow : datetime)
  (r : rasi_chart) (nav : option nav_chart) (birth_dt : option datetime) :
  Dict.get (planets_or_empty r) "Moon" = None ->
  detect_common_yogas r
  = Some (dedupe (mahalakshmi (planets_or_empty r)
                  ++ raja (planets_or_empty r)
                  ++ neecha (planets_or_empty r)) []) /\
  exists ys,
    detect_common_yogas r = Some ys /\
    analyze_chart_for_yogas_and_dasas isoformat utcnow r nav birth_dt
    = Some (mk_analysis ys
              (mk_dasas "Unknown (no Moon position)" None [])).
Proof.
  intros Hmoon.
  assert (Hd : detect_common_yogas r
               = Some (dedupe (mahalakshmi (planets_or_empty r)
                               ++ raja (planets_or_empty r)
                               ++ neecha (planets_or_empty r)) [])).
  { unfold detect_common_yogas, gajakesari, chandra_mangal.
    rewrite (mem_of_get _ _ Hmoon).
    rewrite andb_false_r. cbn [andb Yogas.bind app]. reflexivity. }
  split; [exact Hd|].
  eexists. split; [exact Hd|].
  unfold analyze_chart_for_yogas_and_dasas.
  rewrite Hd, Hmoon. reflexivity.
Qed.

Lemma analysis_without_moon_witness :
  detect_common_yogas Samples.moonless
  = Some (dedupe (mahalakshmi (planets_or_empty Samples.moonless)
                  ++ raja (planets_or_empty Samples.moonless)
                  ++ neecha (planets_or_empty Samples.moonless)) []) /\
  exists ys,
    detect_common_yogas Samples.moonless = Some ys /\
    analyze_chart_for_yogas_and_dasas Py.str_int 0%Z Samples.moonless
      (Some Samples.nav) None
    = Some (mk_analysis ys
              (mk_dasas "Unknown (no Moon position)" None [])).
Proof.
  apply (analysis_without_moon Py.str_int 0%Z Samples.moonless
           (Some Samples.nav) None).
  reflexivity.
Defined.

(** ** engine.py *)

Import Engine.

Lemma planet_entries_shape (ps : list (string * planet_info)) :
  Dict.keys (map (fun '(p, info) => (p, of_planet_info info)) ps)
  = Dict.keys ps /\
  Forall (fun e => exists fields,
            snd e = ODict fields /\
            Dict.keys fields = ["lon"; "rasi"; "deg"]%string)
         (map (fun '(p, info) => (p, of_planet_info info)) ps).
Proof.
  induction ps as [|[p i] ps [IH1 IH2]]; cbn [map Dict.keys fst].
  - split; [reflexivity | constructor].
  - split.
    + f_equal. exact IH1.
    + constructor; [|exact IH2].
      cbn [snd]. eexists. split; reflexivity.
Qed.

(** C5 as stated fails: on a sample chart [format_structured] returns the
    four keys [meta], [rasi], [asc], [navamsa]; [yogas] and [dasas] are not
    among them. *)
Lemma format_structured_lacks_yogas_and_dasas :
  Dict.keys (format_structured Samples.moonless Samples.nav Samples.meta)
  = ["meta"; "rasi"; "asc"; "navamsa"]%string /\
  Dict.get (format_structured Samples.moonless Samples.nav Samples.meta) "yogas"
  = None /\
  Dict.get (format_structured Samples.moonless Samples.nav Samples.meta) "dasas"
  = None /\
  Dict.keys (format_structured Samples.moonless Samples.nav Samples.meta)
  <> ["meta"; "rasi"; "asc"; "navamsa"; "yogas"; "dasas"]%string.
Proof.
  repeat split; try reflexivity. discriminate.
Qed.

(** C5, amended: [format_structured] returns exactly the keys [meta],
    [rasi], [asc] and [navamsa], where [rasi] maps each planet of the chart
    to an object with the keys [lon], [rasi] and [deg]; the payload sent to
    the LLM is that dict after the submit handler has set [yogas] and
    [dasas], and has exactly the six keys. *)
Theorem format_structured_keys
  (r : rasi_chart) (nav : nav_chart) (meta : pyobj) :
  Dict.keys (format_structured r nav meta)
  = ["meta"; "rasi"; "asc"; "navamsa"]%string /\
  Dict.get (format_structured r nav meta) "meta" = Some meta /\
  (exists entries,
     Dict.get (format_structured r nav meta) "rasi" = Some (ODict entries) /\
     Dict.keys entries = Dict.keys (Yogas.planets_or_empty r) /\
     Forall (fun e => exists fields,
               snd e = ODict fields /\
               Dict.keys fields = ["lon"; "rasi"; "deg"]%string)
            entries) /\
  forall a : Yogas.analysis,
    Dict.keys (structured_payload r nav meta a)
    = ["meta"; "rasi"; "asc"; "navamsa"; "yogas"; "dasas"]%string /\
    Dict.get (structured_payload r nav meta a) "yogas"
    = Some (OList (map OStr (Yogas.yogas a))) /\
    Dict.get (structured_payload r nav meta a) "dasas"
    = Some (of_dasas (Yogas.dasas a)).
Proof.
  destruct (planet_entries_shape (Yogas.planets_or_empty r)) as [K F].
  split; [reflexivity|]. split; [reflexivity|]. split.
  - eexists. split; [reflexivity|]. split; [exact K | exact F].
  - intros a. repeat split; reflexivity.
Qed.

(** ** The local fallback *)

Lemma call_llm_unreachable (env : environment) (m : list message) :
  llm_unreachable env -> _call_llm env m = None.
Proof.
  unfold llm_unreachable, _call_llm. intros [Hn Ho].
  destruct (openai_client env) as [f|], (openai_chat_completion env) as [g|];
    try rewrite Hn; try rewrite Ho; reflexivity.
Qed.

Lemma payload_rasi (r : rasi_chart) (nav : nav_chart) (meta : pyobj)
  (a : Yogas.analysis) :
  get_or (structured_payload r nav meta a) "rasi" (ODict [])
  = ODict (map (fun '(p, info) => (p, of_planet_info info))
               (Yogas.planets_or_empty r)).
Proof. reflexivity. Qed.

(** On an entry built by [format_structured] the bullet is produced without
    an exception and without consulting the library. *)
Lemma fallback_bullet_total (p : string) (i : planet_info) :
  exists b, forall lib : library,
    fallback_bullet lib p
      [("lon", of_float (lon i)); ("rasi", of_int (rasi i));
       ("deg", deg_or i)]%string
    = Some b.
Proof.
  unfold fallback_bullet.
  change (get_or [("lon", of_float (lon i)); ("rasi", of_int (rasi i));
                  ("deg", deg_or i)]%string "deg" ONone)
    with (deg_or i).
  change (get_or [("lon", of_float (lon i)); ("rasi", of_int (rasi i));
                  ("deg", deg_or i)]%string "lon" (OInt 0))
    with (of_float (lon i)).
  change (get_or [("lon", of_float (lon i)); ("rasi", of_int (rasi i));
                  ("deg", deg_or i)]%string "rasi" ONone)
    with (of_int (rasi i)).
  assert (R : exists s, forall lib, py_str lib (of_int (rasi i)) = s).
  { exists (match rasi i with
            | Some z => Py.str_int z
            | None => "None"%string
            end).
    intros lib. destruct (rasi i); reflexivity. }
  destruct R as [s Hs].
  assert (D : exists q, forall lib : library,
               (if is_none (deg_or i)
                then match to_float lib (of_float (lon i)) with
                     | Some l => OFloat (Py.mod_ l 30)
                     | None => OFloat 0
                     end
                else deg_or i) = OFloat q).
  { exists (match deg_or i, lon i with
            | OFloat d, _ => d
            | _, Some l => Py.mod_ l 30
            | _, None => 0
            end).
    intros lib. unfold deg_or, of_float.
    destruct (degree_in_sign i) as [d|]; [destruct (Py.truthy_num d)|];
      destruct (deg i) as [d'|]; destruct (lon i) as [l|]; reflexivity. }
  destruct D as [q Hq].
  eexists. intros lib. rewrite Hq, Hs. cbn [format_1f]. reflexivity.
Qed.

(** On the entries built by [format_structured] the bullet loop never
    raises, never consults the library, and stops at six bullets. *)
Lemma fallback_bullets_total (ps : list (string * planet_info)) :
  forall bullets,
    (List.length bullets <= 5)%nat ->
    exists bs,
      (List.length bs <= 6)%nat /\
      forall lib : library,
        fallback_bullets lib
          (map (fun '(p, info) => (p, of_planet_info info)) ps) bullets
        = Some bs.
Proof.
  induction ps as [|[p i] ps IH]; intros bullets Hlen; cbn [map].
  - exists bullets. split; [lia | reflexivity].
  - destruct (fallback_bullet_total p i) as [b Hb].
    assert (L : List.length (bullets ++ [b]) = S (List.length bullets))
      by (rewrite length_app; cbn [List.length]; lia).
    destruct (6 <=? List.length (bullets ++ [b]))%nat eqn:E.
    + exists (bullets ++ [b]). split; [lia|].
      intros lib. unfold of_planet_info at 1. cbn [fallback_bullets].
      rewrite Hb, E. reflexivity.
    + destruct (IH (bullets ++ [b])) as (bs & H1 & H2).
      { apply Nat.leb_gt in E. lia. }
      exists bs. split; [exact H1|].
      intros lib. unfold of_planet_info at 1. cbn [fallback_bullets].
      rewrite Hb, E. apply H2.
Qed.

(** Without a reachable model the analysis is the fallback text, whatever
    the payload, the template and the language. *)
Lemma generate_analysis_unreachable (lib : library) (env : environment)
  (payload : dict) (lang : string) :
  llm_unreachable env ->
  generate_analysis lib env payload lang = _fallback_text lib payload.
Proof.
  intros H. unfold generate_analysis. cbv zeta.
  rewrite (call_llm_unreachable env _ H). reflexivity.
Qed.

(** The loop stops as soon as it holds six bullets. *)
Lemma fallback_bullets_bound (lib : library) (entries : list (string * pyobj)) :
  forall bullets bs,
    (List.length bullets <= 5)%nat ->
    fallback_bullets lib entries bullets = Some bs ->
    (List.length bs <= 6)%nat.
Proof.
  induction entries as [|[p v] entries IH]; intros bullets bs Hlen H;
    cbn [fallback_bullets] in H.
  - injection H as <-. lia.
  - destruct v as [| | | | |l|info]; try discriminate H.
    destruct (fallback_bullet lib p info) as [b|]; [|discriminate H].
    assert (L : List.length (bullets ++ [b]) = S (List.length bullets))
      by (rewrite length_app; cbn [List.length]; lia).
    destruct (6 <=? List.length (bullets ++ [b]))%nat eqn:E.
    + injection H as <-. lia.
    + apply Nat.leb_gt in E. apply (IH (bullets ++ [b])); [lia | exact H].
Qed.

Lemma fallback_text_shape (lib : library) (payload : dict) (res : pyobj) :
  _fallback_text lib payload = Some res ->
  exists bullets narrative,
    res = ODict [("headline", OStr headline);
                 ("bullets", OList (map OStr bullets));
                 ("narrative", OStr narrative);
                 ("yogas", OList []);
                 ("dasas", ODict [])]%string /\
    (List.length bullets <= 6)%nat.
Proof.
  unfold _fallback_text. intros H.
  destruct (get_or payload "rasi" (ODict [])) as [| | | | |l|entries];
    try discriminate H.
  destruct (fallback_bullets lib entries []) as [bs|] eqn:E; [|discriminate H].
  injection H as <-. exists bs. eexists. split; [reflexivity|].
  apply (fallback_bullets_bound lib entries [] bs); [cbn [List.length]; lia|].
  exact E.
Qed.

(** C6: when no client is configured or every call attempt raises,
    [_call_llm] returns [None] and [generate_analysis] is the local fallback.
    Whenever it returns, the result is a dict with exactly the keys
    [headline], [bullets], [narrative], [yogas], [dasas], with [yogas] the
    empty list, [dasas] the empty dict and at most 6 bullets, and it does
    not depend on the environment or the language, so two runs on equal
    payloads agree.  On every payload the application builds it does return,
    and the result does not depend on the library functions either. *)
Theorem generate_analysis_local_fallback
  (lib : library) (env : environment) (lang : string) :
  llm_unreachable env ->
  (forall m, _call_llm env m = None) /\
  (forall payload,
     generate_analysis lib env payload lang = _fallback_text lib payload) /\
  (forall payload res,
     generate_analysis lib env payload lang = Some res ->
     exists bullets narrative,
       res = ODict [("headline", OStr headline);
                    ("bullets", OList (map OStr bullets));
                    ("narrative", OStr narrative);
                    ("yogas", OList []);
                    ("dasas", ODict [])]%string /\
       (List.length bullets <= 6)%nat) /\
  (forall payload (env' : environment) (lang' : string),
     llm_unreachable env' ->
     generate_analysis lib env' payload lang'
     = generate_analysis lib env payload lang) /\
  (forall (r : rasi_chart) (nav : nav_chart) (meta : pyobj)
          (a : Yogas.analysis),
     exists bullets narrative,
       generate_analysis lib env (structured_payload r nav meta a) lang
       = Some (ODict [("headline", OStr headline);
                      ("bullets", OList (map OStr bullets));
                      ("narrative", OStr narrative);
                      ("yogas", OList []);
                      ("dasas", ODict [])]%string) /\
       (List.length bullets <= 6)%nat /\
       forall (lib' : library) (env' : environment) (lang' : string),
         llm_unreachable env' ->
         generate_analysis lib' env' (structured_payload r nav meta a) lang'
         = generate_analysis lib env (structured_payload r nav meta a) lang).
Proof.
  intros H.
  split; [intros m; now apply call_llm_unreachable|].
  split; [intros payload; now apply generate_analysis_unreachable|].
  split.
  { intros payload res Hres.
    rewrite (generate_analysis_unreachable lib env payload lang H) in Hres.
    now apply (fallback_text_shape lib payload). }
  split.
  { intros payload env' lang' H'.
    rewrite (generate_analysis_unreachable lib env' payload lang' H').
    now rewrite (generate_analysis_unreachable lib env payload lang H). }
  intros r nav meta a.
  destruct (fallback_bullets_total (Yogas.planets_or_empty r) [])
    as (bs & Hlen & Hbs); [cbn [List.length]; lia|].
  assert (F : forall l : library,
             _fallback_text l (structured_payload r nav meta a)
             = Some (ODict [("headline", OStr headline);
                            ("bullets", OList (map OStr bs));
                            ("narrative",
                             OStr (headline ++ nl ++ nl ++ "Key placements: "
                                   ++ String.concat "; " bs ++ "." ++ nl ++ nl
                                   ++ "This is an automated fallback reading."));
                            ("yogas", OList []);
                            ("dasas", ODict [])]%string)).
  { intros l. unfold _fallback_text. rewrite payload_rasi, Hbs. reflexivity. }
  exists bs. eexists. split; [|split; [exact Hlen|]].
  - rewrite (generate_analysis_unreachable lib env _ lang H). apply F.
  - intros lib' env' lang' H'.
    rewrite (generate_analysis_unreachable lib' env' _ lang' H').
    rewrite (generate_analysis_unreachable lib env _ lang H).
    now rewrite !F.
Qed.

Lemma generate_analysis_local_fallback_witness :
  llm_unreachable Samples.failing /\
  exists bullets narrative,
    generate_analysis Samples.inert_library Samples.failing
      (structured_payload Samples.moonless Samples.nav Samples.meta
         Samples.no_moon_analysis) "ta"
    = Some (ODict [("headline", OStr headline);
                   ("bullets", OList (map OStr bullets));
                   ("narrative", OStr narrative);
                   ("yogas", OList []);
                   ("dasas", ODict [])]%string) /\
    (List.length bullets <= 6)%nat /\
    forall (lib' : library) (env' : environment) (lang' : string),
      llm_unreachable env' ->
      generate_analysis lib' env'
        (structured_payload Samples.moonless Samples.nav Samples.meta
           Samples.no_moon_analysis) lang'
      = generate_analysis Samples.inert_library Samples.failing
          (structured_payload Samples.moonless Samples.nav Samples.meta
             Samples.no_moon_analysis) "ta".
Proof.
  assert (U : llm_unreachable Samples.failing)
    by (split; intros m; reflexivity).
  split; [exact U|].
  apply (generate_analysis_local_fallback Samples.inert_library
           Samples.failing "ta" U).
Defined.

(** * Further properties of the code *)

(** ** Remainders *)

Lemma floor_add_integer (x : Q) (k : Z) :
  Qfloor (x + inject_Z k) = (Qfloor x + k)%Z.
Proof.
  pose proof (Qfloor_le x) as L. pose proof (Qlt_floor x) as U.
  rewrite inject_Z_plus in U. change (inject_Z 1) with 1 in U.
  assert (E : Qfloor ((x + inject_Z k) / 1) = (Qfloor x + k)%Z).
  { apply floor_div_unique; [reflexivity | |];
      rewrite inject_Z_plus; lra. }
  rewrite <- E. apply Qfloor_comp. field.
Qed.

Lemma mod_small (x d : Q) : 0 <= x -> x < d -> Py.mod_ x d == x.
Proof.
  intros H0 H1. unfold Py.mod_.
  rewrite (floor_div_unique x d 0); [change (inject_Z 0) with 0; ring | lra | |];
    change (inject_Z 0) with 0; lra.
Qed.



(** ** astrology.py: when the charts raise *)



(** ** astrology.py: what is stored for an answer *)






(** ** astrology.py: which number [ascendant] reads *)




(** ** astrology.py: the navamsa as ninth harmonic *)




(** ** astrology.py: the fractional hour of [_julian_day] *)

Import Calendar.




(** ** yogas.py: the nakshatra of an arbitrary longitude *)



(** ** yogas.py: [_angle_distance] is the smaller arc *)






(** ** yogas.py: the detectors *)

Lemma angle_distance_range (a b : Q) :
  0 <= _angle_distance a b /\ _angle_distance a b <= 180.
Proof.
  unfold _angle_distance. split; [apply Qabs_nonneg|].
  destruct (mod_bounds (a - b + 180) 360) as [X0 X1]; [reflexivity|].
  apply Qabs_Qle_condition. split; lra.
Qed.

Lemma Qle_bool_false (x y : Q) : y < x -> Qle_bool x y = false.
Proof.
  intros H. destruct (Qle_bool x y) eqn:E; [|reflexivity].
  apply Qle_bool_imp_le in E. lra.
Qed.

(** X9: the third test of the Gajakesari detector, [abs(d - 240) <= 6],
    never holds, because [d] is at most 180; with Jupiter and Moon on the
    chart the yoga is reported exactly when their distance is at most 6 or
    lies between 114 and 126 degrees. *)
Theorem gajakesari_reported_iff
  (p : list (string * planet_info)) (ji mi : planet_info) (jl ml : Q) :
  Dict.get p "Jupiter" = Some ji -> lon ji = Some jl ->
  Dict.get p "Moon" = Some mi -> lon mi = Some ml ->
  Qle_bool (Qabs (_angle_distance jl ml - 240)) 6 = false /\
  (gajakesari p = Some ["Gajakesari Yoga (heuristic)"%string] <->
   _angle_distance jl ml <= 6 \/
   (114 <= _angle_distance jl ml /\ _angle_distance jl ml <= 126)) /\
  (gajakesari p = Some [] <->
   6 < _angle_distance jl ml /\
   (_angle_distance jl ml < 114 \/ 126 < _angle_distance jl ml)).
Proof.
  intros HJ Hjl HM Hml.
  destruct (angle_distance_range jl ml) as [D0 D1].
  set (d := _angle_distance jl ml) in *.
  assert (T3 : Qle_bool (Qabs (d - 240)) 6 = false).
  { apply Qle_bool_false. rewrite Qabs_neg by lra. lra. }
  split; [exact T3|].
  unfold gajakesari, Dict.mem. rewrite HJ, HM. cbn [andb Yogas.bind].
  rewrite Hjl, Hml. cbn [Yogas.bind]. fold d. rewrite T3, orb_false_r.
  destruct (Qle_bool d 6) eqn:E1; cbn [orb].
  - apply Qle_bool_imp_le in E1.
    split; split; try discriminate; auto; intros; lra.
  - assert (N1 : 6 < d).
    { destruct (Qlt_le_dec 6 d) as [H|H]; [exact H|].
      apply Qle_bool_iff in H. congruence. }
    destruct (Qle_bool (Qabs (d - 120)) 6) eqn:E2.
    + apply Qle_bool_imp_le, Qabs_Qle_condition in E2.
      split; split; try discriminate; auto; intros; lra.
    + assert (N2 : d < 114 \/ 126 < d).
      { destruct (Qlt_le_dec d 114) as [H|H]; [now left|].
        destruct (Qlt_le_dec 126 d) as [H'|H']; [now right|].
        assert (C : Qabs (d - 120) <= 6)
          by (apply Qabs_Qle_condition; split; lra).
        apply Qle_bool_iff in C. congruence. }
      split; split; try discriminate; auto; intros; lra.
Qed.

Lemma gajakesari_reported_iff_witness :
  Qle_bool (Qabs (_angle_distance 5 125 - 240)) 6 = false /\
  (gajakesari [("Jupiter", mk_info (Some 5) None None None);
               ("Moon", mk_info (Some 125) None None None)]%string
   = Some ["Gajakesari Yoga (heuristic)"%string] <->
   _angle_distance 5 125 <= 6 \/
   (114 <= _angle_distance 5 125 /\ _angle_distance 5 125 <= 126)) /\
  (gajakesari [("Jupiter", mk_info (Some 5) None None None);
               ("Moon", mk_info (Some 125) None None None)]%string
   = Some [] <->
   6 < _angle_distance 5 125 /\
   (_angle_distance 5 125 < 114 \/ 126 < _angle_distance 5 125)).
Proof.
  apply (gajakesari_reported_iff
           [("Jupiter", mk_info (Some 5) None None None);
            ("Moon", mk_info (Some 125) None None None)]%string
           (mk_info (Some 5) None None None)
           (mk_info (Some 125) None None None) 5 125); reflexivity.
Defined.




Lemma existsb_eqb_in (s : string) (l : list string) :
  existsb (String.eqb s) l = true <-> In s l.
Proof.
  rewrite existsb_exists. split.
  - intros (x & Hx & E). apply String.eqb_eq in E. now subst.
  - intros H. exists s. split; [exact H | apply String.eqb_refl].
Qed.

Lemma dedupe_spec (out : list string) :
  forall seen,
    NoDup (dedupe out seen) /\
    (forall s, In s (dedupe out seen) <-> In s out /\ ~ In s seen) /\
    (forall s, In s (dedupe out seen) -> ~ In s seen).
Proof.
  induction out as [|x out IH]; intros seen; cbn [dedupe].
  - split; [constructor|]. split; [|intros s []].
    intros s; split; [intros [] | intros [[] _]].
  - destruct (existsb (String.eqb x) seen) eqn:E.
    + apply existsb_eqb_in in E.
      destruct (IH seen) as (N & M & F). split; [exact N|]. split; [|exact F].
      intros s. rewrite M. cbn [In]. split.
      * intros [H1 H2]. split; [now right | exact H2].
      * intros [[<-|H1] H2]; [contradiction | now split].
    + assert (Hx : ~ In x seen).
      { intros H. apply existsb_eqb_in in H. congruence. }
      destruct (IH (x :: seen)) as (N & M & F).
      split; [|split].
      * constructor; [|exact N]. intros H. apply F in H. apply H. now left.
      * intros s. cbn [In]. rewrite M. cbn [In]. split.
        -- intros [<-|[H1 H2]]; [split; [now left | exact Hx]|].
           split; [now right | intros H; apply H2; now right].
        -- intros [[<-|H1] H2]; [now left|].
           destruct (string_dec x s) as [->|Hne]; [now left|].
           right. split; [exact H1|]. intros [H|H]; [contradiction|contradiction].
      * intros s [<-|H]; [exact Hx|].
        apply F in H. intros H'. apply H. now right.
Qed.

Lemma dedupe_nodup_id (out : list string) :
  forall seen,
    NoDup out -> (forall s, In s out -> ~ In s seen) -> dedupe out seen = out.
Proof.
  induction out as [|x out IH]; intros seen N D; cbn [dedupe]; [reflexivity|].
  inversion N as [|? ? Hx N']; subst.
  destruct (existsb (String.eqb x) seen) eqn:E.
  - apply existsb_eqb_in in E. exfalso. apply (D x); [now left | exact E].
  - f_equal. apply IH; [exact N'|].
    intros s Hs [<-|H]; [contradiction|].
    apply (D s); [now right | exact H].
Qed.

(** X11: the list returned by [detect_common_yogas] has no duplicates and
    holds exactly the strings produced by the five detectors (Gajakesari,
    Chandra-Mangal, Mahalakshmi, Raja-yoga, weak placement); when the
    detectors produce no string twice, it is their output unchanged, in
    detector order. *)
Theorem detected_yogas_are_deduplicated (r : rasi_chart) (ys : list string) :
  detect_common_yogas r = Some ys ->
  exists o1 o2,
    gajakesari (planets_or_empty r) = Some o1 /\
    chandra_mangal (planets_or_empty r) = Some o2 /\
    NoDup ys /\
    (forall s, In s ys <->
               In s (o1 ++ o2 ++ mahalakshmi (planets_or_empty r)
                     ++ raja (planets_or_empty r)
                     ++ neecha (planets_or_empty r))) /\
    (NoDup (o1 ++ o2 ++ mahalakshmi (planets_or_empty r)
            ++ raja (planets_or_empty r) ++ neecha (planets_or_empty r)) ->
     ys = o1 ++ o2 ++ mahalakshmi (planets_or_empty r)
          ++ raja (planets_or_empty r) ++ neecha (planets_or_empty r)).
Proof.
  unfold detect_common_yogas. intros H.
  destruct (gajakesari (planets_or_empty r)) as [o1|]; [|discriminate H].
  destruct (chandra_mangal (planets_or_empty r)) as [o2|]; [|discriminate H].
  cbn [Yogas.bind] in H. injection H as <-.
  exists o1, o2. split; [reflexivity|]. split; [reflexivity|].
  destruct (dedupe_spec
              (o1 ++ o2 ++ mahalakshmi (planets_or_empty r)
               ++ raja (planets_or_empty r) ++ neecha (planets_or_empty r)) [])
    as (N & M & _).
  split; [exact N|]. split.
  - intros s. rewrite M. cbn [In]. tauto.
  - intros ND. apply dedupe_nodup_id; [exact ND | intros s _ []].
Qed.

Lemma detected_yogas_are_deduplicated_witness :
  exists o1 o2,
    gajakesari (planets_or_empty Samples.moonless) = Some o1 /\
    chandra_mangal (planets_or_empty Samples.moonless) = Some o2 /\
    NoDup (dedupe (mahalakshmi (planets_or_empty Samples.moonless)
                   ++ raja (planets_or_empty Samples.moonless)
                   ++ neecha (planets_or_empty Samples.moonless)) []) /\
    (forall s,
       In s (dedupe (mahalakshmi (planets_or_empty Samples.moonless)
                     ++ raja (planets_or_empty Samples.moonless)
                     ++ neecha (planets_or_empty Samples.moonless)) []) <->
       In s (o1 ++ o2 ++ mahalakshmi (planets_or_empty Samples.moonless)
             ++ raja (planets_or_empty Samples.moonless)
             ++ neecha (planets_or_empty Samples.moonless))) /\
    (NoDup (o1 ++ o2 ++ mahalakshmi (planets_or_empty Samples.moonless)
            ++ raja (planets_or_empty Samples.moonless)
            ++ neecha (planets_or_empty Samples.moonless)) ->
     dedupe (mahalakshmi (planets_or_empty Samples.moonless)
             ++ raja (planets_or_empty Samples.moonless)
             ++ neecha (planets_or_empty Samples.moonless)) []
     = o1 ++ o2 ++ mahalakshmi (planets_or_empty Samples.moonless)
       ++ raja (planets_or_empty Samples.moonless)
       ++ neecha (planets_or_empty Samples.moonless)).
Proof.
  apply (detected_yogas_are_deduplicated Samples.moonless).
  reflexivity.
Defined.

(** ** Charts computed by [get_rasi_chart] *)

(** The entry [get_rasi_chart] builds for the stored longitude [l]. *)
Lemma rasi_update_of_lon (l : Q) :
  rasi_update (mk_info (Some l) None None None)
  = mk_info (Some l) (Some (Qfloor (l / 30) + 1)%Z) (Some (Py.mod_ l 30)) None.
Proof.
  unfold rasi_update, lon_or. cbn [lon deg]. now rewrite int_floordiv.
Qed.

(** A computed chart lists the eight bodies in order, each with its
    longitude in [[0, 360)], its sign and its degree in the sign. *)
Lemma computed_chart_shape (e : ephemeris) (r : rasi_chart) :
  get_rasi_chart e = Some r ->
  exists l1 l2 l3 l4 l5 l6 l7 l8,
    Forall (fun l => 0 <= l /\ l < 360) [l1; l2; l3; l4; l5; l6; l7; l8] /\
    r = mk_rasi
          (Some (map (fun '(nm, l) =>
                        (nm, mk_info (Some l) (Some (Qfloor (l / 30) + 1)%Z)
                                     (Some (Py.mod_ l 30)) None))
                     [("Sun", l1); ("Moon", l2); ("Mercury", l3);
                      ("Venus", l4); ("Mars", l5); ("Jupiter", l6);
                      ("Saturn", l7); ("Rahu", l8)]%string))
          (Some (ascendant e)).
Proof.
  unfold get_rasi_chart. intros H.
  destruct (planet_positions e) as [ps|] eqn:Hps; [|discriminate H].
  injection H as <-.
  destruct (planet_positions_shape e ps Hps) as (rs & Hrs & ->).
  assert (L : List.length rs = 8%nat).
  { apply (f_equal (@List.length _)) in Hrs.
    rewrite !length_map in Hrs. symmetry; exact Hrs. }
  do 9 (destruct rs as [|? rs]; try discriminate L).
  do 8 eexists. split.
  - repeat (constructor; [apply mod_bounds; reflexivity|]). constructor.
  - cbn [bodies combine map fst]. rewrite !rasi_update_of_lon. reflexivity.
Qed.





(** ** yogas.py: a Moon entry without a longitude *)



(** ** The degree 0.0 is falsy *)

(** X14: the consumers of a chart read "degree_in_sign" with [or], so a
    stored degree of 0.0 counts as absent and is recomputed from the
    longitude.  On every entry written by [get_rasi_chart] this changes
    nothing: the weak-placement detector and both renderers use the degree
    [lon mod 30] and the sign [floor(lon/30) + 1].  On other entries a
    stored degree is used when it is not zero, and replaced by [lon mod 30]
    when it is. *)
Theorem zero_degree_is_recomputed (i : planet_info) :
  neecha_deg (rasi_update i) = Py.mod_ (lon_or i 0) 30 /\
  Renderer.deg_of (rasi_update i) = Py.mod_ (lon_or i 0) 30 /\
  Renderer.sign_of (rasi_update i) = (Qfloor (lon_or i 0 / 30) + 1)%Z /\
  (forall d, degree_in_sign i = Some d -> ~ d == 0 ->
             neecha_deg i = d /\ Renderer.deg_of i = d) /\
  (forall d, degree_in_sign i = Some d -> d == 0 ->
             neecha_deg i = Py.mod_ (lon_or i 0) 30 /\
             Renderer.deg_of i = Py.mod_ (lon_or i 0) 30).
Proof.
  assert (L : lon_or (rasi_update i) 0 = lon_or i 0) by reflexivity.
  split; [|split; [|split; [|split]]].
  - unfold neecha_deg. rewrite L. cbn [rasi_update degree_in_sign].
    now destruct (Py.truthy_num (Py.mod_ (lon_or i 0) 30)).
  - unfold Renderer.deg_of. rewrite L. cbn [rasi_update degree_in_sign].
    now destruct (Py.truthy_num (Py.mod_ (lon_or i 0) 30)).
  - unfold Renderer.sign_of. rewrite L. cbn [rasi_update rasi].
    rewrite int_floordiv.
    now destruct (Qfloor (lon_or i 0 / 30) + 1 =? 0)%Z.
  - intros d Hd Hnz. unfold neecha_deg, Renderer.deg_of. rewrite Hd.
    assert (T : Py.truthy_num d = true).
    { unfold Py.truthy_num. destruct (Qeq_bool d 0) eqn:E; [|reflexivity].
      apply Qeq_bool_eq in E. contradiction. }
    rewrite T. split; reflexivity.
  - intros d Hd Hz. unfold neecha_deg, Renderer.deg_of. rewrite Hd.
    assert (T : Py.truthy_num d = false).
    { unfold Py.truthy_num. apply Qeq_eq_bool in Hz. now rewrite Hz. }
    rewrite T. split; reflexivity.
Qed.

(** ** yogas.py: the instants of the dasa timeline *)




Section DasaInstants.
Variable isoformat : datetime -> string.
Variable utcnow : datetime.



End DasaInstants.

(** ** engine.py: the prompt carries the payload *)

Lemma prefix_app (s t : string) : String.prefix s (s ++ t) = true.
Proof.
  induction s as [|c s IH]; cbn [String.append].
  - now destruct t.
  - cbn [String.prefix].
    destruct (ascii_dec c c) as [_|N]; [exact IH | now elim N].
Qed.

Lemma contains_of_prefix (needle hay : string) :
  String.prefix needle hay = true -> contains needle hay = true.
Proof.
  intros H. destruct hay as [|c hay]; cbn [contains]; [exact H|].
  now rewrite H.
Qed.

Lemma prefix_refl (s : string) : String.prefix s s = true.
Proof.
  induction s as [|c s IH]; cbn [String.prefix]; [reflexivity|].
  destruct (ascii_dec c c) as [_|N]; [exact IH | now elim N].
Qed.

Lemma contains_app_r (pre s : string) : contains s (pre ++ s) = true.
Proof.
  induction pre as [|c pre IH]; cbn [String.append].
  - apply contains_of_prefix, prefix_refl.
  - cbn [contains]. rewrite IH. apply orb_true_r.
Qed.

Lemma contains_skip (pre needle hay : string) :
  contains needle hay = true -> contains needle (pre ++ hay) = true.
Proof.
  intros H. induction pre as [|c pre IH]; cbn [String.append]; [exact H|].
  cbn [contains]. rewrite IH. apply orb_true_r.
Qed.

(** After a replacement that finds the placeholder the new text occurs. *)
Lemma contains_replace (old new s : string) :
  old <> EmptyString -> contains old s = true ->
  contains new (replace old new s) = true.
Proof.
  intros Hne. unfold replace.
  induction s as [|c s IH]; cbn [contains replace_from]; intros H.
  - destruct old; [now elim Hne | discriminate H].
  - destruct (String.prefix old (String c s)) eqn:P.
    + apply contains_of_prefix, prefix_app.
    + cbn [orb] in H. cbn [contains]. rewrite (IH H). apply orb_true_r.
Qed.

(** X16: whatever the template file holds, and whatever the language, the
    prompt built by [_build_prompt] contains the JSON dump of the structured
    payload: in place of the first kind of placeholder the template has, or
    appended after the template when it has none. *)
Theorem prompt_contains_payload
  (lib : library) (env : environment) (structured : dict) (lang : string) :
  contains (json_dumps lib (ODict structured))
           (_build_prompt lib env structured lang) = true.
Proof.
  unfold _build_prompt.
  set (template := _load_prompt_template env lang).
  set (s := json_dumps lib (ODict structured)).
  destruct (contains "{{ structured_data }}" template) eqn:C1.
  - apply contains_replace; [discriminate | exact C1].
  - destruct (contains "{input}" template) eqn:C2.
    + apply contains_replace; [discriminate | exact C2].
    + do 4 apply contains_skip. apply contains_app_r.
Qed.

(** ** engine.py: what the fallback text lists *)

Import EngineSpec.

Lemma fallback_bullet_expected (lib : library) (p : string) (i : planet_info) :
  fallback_bullet lib p
    [("lon", of_float (lon i)); ("rasi", of_int (rasi i));
     ("deg", deg_or i)]%string
  = Some (expected_bullet p i).
Proof.
  unfold fallback_bullet, expected_bullet, shown_degree.
  change (get_or [("lon", of_float (lon i)); ("rasi", of_int (rasi i));
                  ("deg", deg_or i)]%string "deg" ONone)
    with (deg_or i).
  change (get_or [("lon", of_float (lon i)); ("rasi", of_int (rasi i));
                  ("deg", deg_or i)]%string "lon" (OInt 0))
    with (of_float (lon i)).
  change (get_or [("lon", of_float (lon i)); ("rasi", of_int (rasi i));
                  ("deg", deg_or i)]%string "rasi" ONone)
    with (of_int (rasi i)).
  unfold deg_or, of_float, of_int.
  destruct (rasi i) as [z|];
    (destruct (degree_in_sign i) as [d|]; [destruct (Py.truthy_num d)|]);
    destruct (deg i) as [d'|]; destruct (lon i) as [l|]; reflexivity.
Qed.

Lemma fallback_bullets_firstn (lib : library) (ps : list (string * planet_info)) :
  forall bullets,
    (List.length bullets <= 5)%nat ->
    fallback_bullets lib
      (map (fun '(p, info) => (p, of_planet_info info)) ps) bullets
    = Some (firstn 6 (bullets
                      ++ map (fun '(p, i) => expected_bullet p i) ps)).
Proof.
  induction ps as [|[p i] ps IH]; intros bullets Hlen; cbn [map].
  - cbn [fallback_bullets]. rewrite app_nil_r, firstn_all2 by lia. reflexivity.
  - unfold of_planet_info at 1. cbn [fallback_bullets].
    rewrite fallback_bullet_expected.
    assert (L : List.length (bullets ++ [expected_bullet p i])
                = S (List.length bullets))
      by (rewrite length_app; cbn [List.length]; lia).
    replace (bullets ++ expected_bullet p i
                     :: map (fun '(p0, i0) => expected_bullet p0 i0) ps)
      with ((bullets ++ [expected_bullet p i])
            ++ map (fun '(p0, i0) => expected_bullet p0 i0) ps)
      by (rewrite <- app_assoc; reflexivity).
    destruct (6 <=? List.length (bullets ++ [expected_bullet p i]))%nat eqn:E.
    + apply Nat.leb_le in E.
      rewrite firstn_app.
      replace (6 - List.length (bullets ++ [expected_bullet p i]))%nat
        with 0%nat by lia.
      rewrite firstn_all2 by lia. cbn [firstn]. now rewrite app_nil_r.
    + apply Nat.leb_gt in E. apply IH. lia.
Qed.

(** X17: when no model is reachable, the analysis of a payload built by the
    application lists the first six planets of the chart, in chart order,
    one bullet each (all of them when the chart has fewer than six): every
    bullet shows the planet, its sign and its degree with one decimal, and
    the narrative joins the bullets with "; ". *)
Theorem fallback_lists_first_six_planets
  (lib : library) (env : environment) (lang : string)
  (r : rasi_chart) (nav : nav_chart) (meta : pyobj) (a : Yogas.analysis) :
  llm_unreachable env ->
  exists bullets,
    bullets = firstn 6 (map (fun '(p, i) => expected_bullet p i)
                            (Yogas.planets_or_empty r)) /\
    List.length bullets
    = Nat.min 6 (List.length (Yogas.planets_or_empty r)) /\
    generate_analysis lib env (structured_payload r nav meta a) lang
    = Some (ODict
              [("headline", OStr headline);
               ("bullets", OList (map OStr bullets));
               ("narrative",
                OStr (headline ++ nl ++ nl ++ "Key placements: "
                      ++ String.concat "; " bullets ++ "." ++ nl ++ nl
                      ++ "This is an automated fallback reading."));
               ("yogas", OList []);
               ("dasas", ODict [])]%string).
Proof.
  intros H. eexists. split; [reflexivity|]. split.
  - rewrite length_firstn, length_map. reflexivity.
  - rewrite (generate_analysis_unreachable lib env _ lang H).
    unfold _fallback_text. rewrite payload_rasi.
    rewrite (fallback_bullets_firstn lib _ []) by (cbn [List.length]; lia).
    reflexivity.
Qed.

Lemma fallback_lists_first_six_planets_witness :
  exists bullets,
    bullets = firstn 6 (map (fun '(p, i) => expected_bullet p i)
                            (Yogas.planets_or_empty Samples.moonless)) /\
    List.length bullets
    = Nat.min 6 (List.length (Yogas.planets_or_empty Samples.moonless)) /\
    generate_analysis Samples.inert_library Samples.offline
      (structured_payload Samples.moonless Samples.nav Samples.meta
         Samples.no_moon_analysis) "en"
    = Some (ODict
              [("headline", OStr headline);
               ("bullets", OList (map OStr bullets));
               ("narrative",
                OStr (headline ++ nl ++ nl ++ "Key placements: "
                      ++ String.concat "; " bullets ++ "." ++ nl ++ nl
                      ++ "This is an automated fallback reading."));
               ("yogas", OList []);
               ("dasas", ODict [])]%string).
Proof.
  apply (fallback_lists_first_six_planets Samples.inert_library
           Samples.offline "en" Samples.moonless Samples.nav Samples.meta
           Samples.no_moon_analysis).
  split; exact I.
Defined.

Lemma shown_degree_computed (l : Q) :
  shown_degree (mk_info (Some l) (Some (Qfloor (l / 30) + 1)%Z)
                        (Some (Py.mod_ l 30)) None)
  = Py.mod_ l 30.
Proof.
  unfold shown_degree. cbn [degree_in_sign deg lon].
  now destruct (Py.truthy_num (Py.mod_ l 30)).
Qed.

(** X18: for a chart computed by [get_rasi_chart], the fallback reading
    mentions exactly Sun, Moon, Mercury, Venus, Mars and Jupiter, in this
    order, each with the sign [floor(lon/30) + 1] and the degree
    [lon mod 30] of its stored longitude (also when the degree is 0.0, which
    [format_structured] drops from the payload); Saturn and Rahu are never
    mentioned. *)
Theorem fallback_of_computed_chart
  (lib : library) (env : environment) (lang : string) (e : ephemeris)
  (r : rasi_chart) (nav : nav_chart) (meta : pyobj) (a : Yogas.analysis) :
  get_rasi_chart e = Some r -> llm_unreachable env ->
  exists ls narrative,
    List.length ls = 6%nat /\
    Forall2 (fun p l =>
               exists i, Dict.get (Yogas.planets_or_empty r) p = Some i /\
                         lon i = Some l)
            ["Sun"; "Moon"; "Mercury"; "Venus"; "Mars"; "Jupiter"]%string ls /\
    generate_analysis lib env (structured_payload r nav meta a) lang
    = Some (ODict
              [("headline", OStr headline);
               ("bullets",
                OList (map (fun '(p, l) =>
                              OStr (p ++ ": sign "
                                    ++ Py.str_int (Qfloor (l / 30) + 1)
                                    ++ ", "
                                    ++ Py.format_fixed 1 (Py.mod_ l 30)
                                    ++ bullet_suffix))
                           (combine ["Sun"; "Moon"; "Mercury"; "Venus";
                                     "Mars"; "Jupiter"]%string ls)));
               ("narrative", OStr narrative);
               ("yogas", OList []);
               ("dasas", ODict [])]%string).
Proof.
  intros Hr H.
  destruct (computed_chart_shape e r Hr)
    as (l1 & l2 & l3 & l4 & l5 & l6 & l7 & l8 & _ & ->).
  exists [l1; l2; l3; l4; l5; l6]. eexists.
  split; [reflexivity|]. split.
  - repeat (constructor; [eexists; split; reflexivity|]). constructor.
  - rewrite (generate_analysis_unreachable lib env _ lang H).
    unfold _fallback_text. rewrite payload_rasi.
    rewrite (fallback_bullets_firstn lib _ []) by (cbn [List.length]; lia).
    cbn [Yogas.planets_or_empty planets map app firstn combine].
    unfold expected_bullet. rewrite !shown_degree_computed.
    cbn [rasi]. reflexivity.
Qed.

Lemma fallback_of_computed_chart_witness :
  exists r ls narrative,
    get_rasi_chart Samples.eph = Some r /\
    List.length ls = 6%nat /\
    Forall2 (fun p l =>
               exists i, Dict.get (Yogas.planets_or_empty r) p = Some i /\
                         lon i = Some l)
            ["Sun"; "Moon"; "Mercury"; "Venus"; "Mars"; "Jupiter"]%string ls /\
    generate_analysis Samples.inert_library Samples.failing
      (structured_payload r Samples.nav Samples.meta Samples.no_moon_analysis)
      "ta"
    = Some (ODict
              [("headline", OStr headline);
               ("bullets",
                OList (map (fun '(p, l) =>
                              OStr (p ++ ": sign "
                                    ++ Py.str_int (Qfloor (l / 30) + 1)
                                    ++ ", "
                                    ++ Py.format_fixed 1 (Py.mod_ l 30)
                                    ++ bullet_suffix))
                           (combine ["Sun"; "Moon"; "Mercury"; "Venus";
                                     "Mars"; "Jupiter"]%string ls)));
               ("narrative", OStr narrative);
               ("yogas", OList []);
               ("dasas", ODict [])]%string).
Proof.
  destruct (get_rasi_chart Samples.eph) as [r|] eqn:E;
    [|vm_compute in E; discriminate].
  assert (U : llm_unreachable Samples.failing)
    by (split; intros m; reflexivity).
  destruct (fallback_of_computed_chart Samples.inert_library Samples.failing
              "ta" Samples.eph r Samples.nav Samples.meta
              Samples.no_moon_analysis E U) as (ls & narrative & H).
  exists r, ls, narrative. split; [reflexivity | exact H].
Defined.

(** ** engine.py: a reply without usable JSON *)




(** ** engine.py: the brace scan of [_extract_json_from_text] *)

Lemma brace_balance_cons (c : ascii) (s : string) :
  brace_balance (String c s)
  = ((if Ascii.eqb c "{"%char then 1 else 0)
     - (if Ascii.eqb c "}"%char then 1 else 0) + brace_balance s)%Z.
Proof. unfold brace_balance. cbn [count_char]. lia. Qed.

(** While the depth is positive, the scan stops at the first position where
    the braces read so far bring it to zero. *)
Lemma scan_depth_spec (s : string) :
  forall (depth : Z) (len n : nat),
    (1 <= depth)%Z ->
    scan_depth s depth len = Some n ->
    exists m,
      n = (len + m)%nat /\ (1 <= m <= String.length s)%nat /\
      (depth + brace_balance (substring 0 m s) = 0)%Z /\
      String.get (m - 1) s = Some "}"%char /\
      forall j, (j < m)%nat ->
                (1 <= depth + brace_balance (substring 0 j s))%Z.
Proof.
  induction s as [|c s IH]; intros depth len n Hd H; cbn [scan_depth] in H;
    [discriminate H|].
  assert (Step : forall depth',
             (1 <= depth')%Z ->
             (depth' = depth + ((if Ascii.eqb c "{"%char then 1 else 0)
                                - (if Ascii.eqb c "}"%char then 1 else 0)))%Z ->
             scan_depth s depth' (S len) = Some n ->
             exists m,
               n = (len + m)%nat /\ (1 <= m <= String.length (String c s))%nat /\
               (depth + brace_balance (substring 0 m (String c s)) = 0)%Z /\
               String.get (m - 1) (String c s) = Some "}"%char /\
               forall j, (j < m)%nat ->
                 (1 <= depth + brace_balance (substring 0 j (String c s)))%Z).
  { intros depth' Hd' Hdep Hs.
    destruct (IH depth' (S len) n Hd' Hs) as (m & -> & Hm & Hb & Hg & Hall).
    exists (S m). split; [lia|]. split; [cbn [String.length]; lia|].
    split; [|split].
    - cbn [substring]. rewrite brace_balance_cons. lia.
    - replace (S m - 1)%nat with (S (m - 1)) by lia. exact Hg.
    - intros [|j] Hj.
      + cbn [substring]. unfold brace_balance; cbn [count_char]. lia.
      + cbn [substring]. rewrite brace_balance_cons.
        specialize (Hall j ltac:(lia)). lia. }
  destruct (Ascii.eqb c "{"%char) eqn:Eo.
  - assert (Ec : Ascii.eqb c "}"%char = false).
    { apply Ascii.eqb_eq in Eo. subst c. reflexivity. }
    rewrite Ec in Step. apply (Step (depth + 1)%Z); [lia | lia | exact H].
  - destruct (Ascii.eqb c "}"%char) eqn:Ec.
    + destruct (depth - 1 =? 0)%Z eqn:Ez.
      * apply Z.eqb_eq in Ez. injection H as <-.
        exists 1%nat. split; [lia|]. split; [cbn [String.length]; lia|].
        split; [|split].
        -- cbn [substring].
           assert (Z0 : substring 0 0 s = EmptyString) by (now destruct s).
           rewrite Z0, brace_balance_cons, Eo, Ec.
           unfold brace_balance; cbn [count_char]; lia.
        -- cbn [String.get]. apply Ascii.eqb_eq in Ec. now subst c.
        -- intros j Hj. replace j with 0%nat by lia.
           cbn [substring]. unfold brace_balance; cbn [count_char]. lia.
      * apply Z.eqb_neq in Ez.
        apply (Step (depth - 1)%Z); [lia | lia | exact H].
    + apply (Step depth); [lia | lia | exact H].
Qed.

(** When the scan runs off the end, the depth never came back to zero. *)
Lemma scan_depth_none (s : string) :
  forall (depth : Z) (len : nat),
    (1 <= depth)%Z ->
    scan_depth s depth len = None ->
    forall j, (1 <= depth + brace_balance (substring 0 j s))%Z.
Proof.
  induction s as [|c s IH]; intros depth len Hd H j.
  - assert (E : substring 0 j EmptyString = EmptyString) by (now destruct j).
    rewrite E. unfold brace_balance; cbn [count_char]. lia.
  - destruct j as [|j]; cbn [substring].
    + unfold brace_balance; cbn [count_char]. lia.
    + rewrite brace_balance_cons. cbn [scan_depth] in H.
      destruct (Ascii.eqb c "{"%char) eqn:Eo.
      * assert (Ec : Ascii.eqb c "}"%char = false).
        { apply Ascii.eqb_eq in Eo. subst c. reflexivity. }
        rewrite Ec. specialize (IH (depth + 1)%Z (S len) ltac:(lia) H j). lia.
      * destruct (Ascii.eqb c "}"%char) eqn:Ec.
        -- destruct (depth - 1 =? 0)%Z eqn:Ez; [discriminate H|].
           apply Z.eqb_neq in Ez.
           specialize (IH (depth - 1)%Z (S len) ltac:(lia) H j). lia.
        -- specialize (IH depth (S len) Hd H j). lia.
Qed.

Lemma substring_nested (start n : nat) (s : string) :
  (start + n <= String.length s)%nat ->
  substring 0 n (substring start (String.length s - start) s)
  = substring start n s.
Proof.
  revert s. induction start as [|start IH]; intros s H.
  - rewrite Nat.sub_0_r.
    assert (F : forall t, substring 0 (String.length t) t = t).
    { induction t as [|c t IHt]; cbn [String.length substring];
        [reflexivity | now rewrite IHt]. }
    now rewrite F.
  - destruct s as [|c s]; cbn [String.length] in H; [lia|].
    cbn [String.length substring Nat.sub]. apply IH. lia.
Qed.

Lemma find_char_spec (c : ascii) (s : string) (k : nat) :
  find_char c s = Some k ->
  (k < String.length s)%nat /\ String.get k s = Some c /\
  exists rest, substring k (String.length s - k) s = String c rest.
Proof.
  revert k. induction s as [|ch s IH]; intros k H; cbn [find_char] in H;
    [discriminate H|].
  destruct (Ascii.eqb ch c) eqn:E.
  - injection H as <-. apply Ascii.eqb_eq in E. subst ch.
    cbn [String.length String.get]. split; [lia|]. split; [reflexivity|].
    exists s. rewrite Nat.sub_0_r. cbn [substring]. f_equal.
    clear. induction s as [|c s IHs]; cbn [String.length substring];
      [reflexivity | now rewrite IHs].
  - destruct (find_char c s) as [k'|] eqn:F; [|discriminate H].
    injection H as <-. destruct (IH k' eq_refl) as (L & G & rest & R).
    cbn [String.length String.get]. split; [lia|]. split; [exact G|].
    exists rest. cbn [Nat.sub substring]. exact R.
Qed.

(** X20: when the whole text is not JSON, [_extract_json_from_text] looks at
    exactly one candidate: the shortest piece of the text that starts at the
    first open brace and in which the braces balance (every shorter piece
    from that brace on has more open than closing braces); the result is
    what the parser makes of the cleaned candidate, [None] when the parser
    rejects it.  The result is [None] without consulting the parser again
    when the text has no open brace, or when from the first open brace on
    the braces never balance. *)
Theorem extracted_json_is_first_balanced_group (lib : library) (text : string) :
  text <> EmptyString -> json_loads lib text = None ->
  (find_char "{"%char text = None /\
   _extract_json_from_text lib text = ONone) \/
  (exists start,
     find_char "{"%char text = Some start /\
     (forall j, (1 <= j)%nat -> (start + j <= String.length text)%nat ->
                (1 <= brace_balance (substring start j text))%Z) /\
     _extract_json_from_text lib text = ONone) \/
  exists start n candidate,
    find_char "{"%char text = Some start /\
    (2 <= n)%nat /\ (start + n <= String.length text)%nat /\
    candidate = substring start n text /\
    String.get 0 candidate = Some "{"%char /\
    String.get (n - 1) candidate = Some "}"%char /\
    brace_balance candidate = 0%Z /\
    (forall j, (1 <= j < n)%nat ->
               (1 <= brace_balance (substring start j text))%Z) /\
    _extract_json_from_text lib text
    = match json_loads lib
              (strip (re_sub lib ",\s*]" "]" (re_sub lib ",\s*}" "}" candidate)))
      with
      | Some v => v
      | None => ONone
      end.
Proof.
  intros Hne Hj. unfold _extract_json_from_text.
  destruct (String.eqb_spec text EmptyString) as [E|_]; [contradiction|].
  rewrite Hj.
  destruct (find_char "{"%char text) as [start|] eqn:F;
    [|left; split; reflexivity].
  right.
  destruct (find_char_spec _ _ _ F) as (Ls & _ & rest & Htail).
  set (tail := substring start (String.length text - start) text) in *.
  assert (Ltail : String.length tail = (String.length text - start)%nat).
  { unfold tail. clear -Ls. revert start Ls.
    induction text as [|c t IHt]; intros start Ls; cbn [String.length] in *;
      [lia|].
    destruct start as [|start]; cbn [substring Nat.sub].
    - cbn [String.length]. f_equal.
      clear. induction t as [|c t IHt]; cbn [String.length substring];
        [reflexivity | now rewrite IHt].
    - apply IHt. lia. }
  assert (Lrest : String.length tail = S (String.length rest))
    by (rewrite Htail; reflexivity).
  assert (Sub : forall j, (start + j <= String.length text)%nat ->
                          substring 0 j tail = substring start j text).
  { intros j Hjm. apply substring_nested. exact Hjm. }
  destruct (scan_depth tail 0 0) as [n|] eqn:Hscan.
  2:{ left. exists start. split; [reflexivity|]. split; [|reflexivity].
      intros j Hj1 Hj2. rewrite <- Sub by exact Hj2.
      rewrite Htail in Hscan |- *. cbn [scan_depth] in Hscan.
      change (Ascii.eqb "{" "{") with true in Hscan. cbn iota in Hscan.
      destruct j as [|j]; [lia|]. cbn [substring].
      rewrite brace_balance_cons.
      change (Ascii.eqb "{" "{") with true.
      change (Ascii.eqb "{" "}") with false.
      pose proof (scan_depth_none rest 1 1 ltac:(lia) Hscan j). lia. }
  right. exists start, n, (substring 0 n tail).
  rewrite Htail in Hscan. cbn [scan_depth] in Hscan.
  change (Ascii.eqb "{" "{") with true in Hscan. cbn iota in Hscan.
  destruct (scan_depth_spec rest 1 1 n ltac:(lia) Hscan)
    as (m & -> & Hm & Hb & Hg & Hall).
  assert (Bound : (start + (1 + m) <= String.length text)%nat) by lia.
  split; [reflexivity|]. split; [lia|]. split; [exact Bound|].
  split; [apply Sub; lia|]. split; [|split; [|split; [|split]]].
  - rewrite Htail. reflexivity.
  - rewrite Htail. cbn [Nat.add substring String.get].
    replace (S m - 1)%nat with (S (m - 1)) by lia.
    cbn [String.get].
    clear -Hg Hm. revert rest Hg Hm.
    induction m as [|m IHm]; intros rest Hg Hm; [lia|].
    destruct rest as [|c rest]; cbn [String.length] in Hm; [lia|].
    cbn [substring]. destruct m as [|m'].
    + cbn [Nat.sub String.get] in *. exact Hg.
    + replace (S (S m') - 1)%nat with (S (S m' - 1)) in * by lia.
      cbn [String.get] in *. apply IHm; [exact Hg | lia].
  - rewrite Htail. cbn [Nat.add substring]. rewrite brace_balance_cons.
    change (Ascii.eqb "{" "{") with true. change (Ascii.eqb "{" "}") with false.
    lia.
  - intros j Hjn. rewrite <- Sub by lia. rewrite Htail.
    destruct j as [|j]; [lia|]. cbn [substring]. rewrite brace_balance_cons.
    change (Ascii.eqb "{" "{") with true. change (Ascii.eqb "{" "}") with false.
    specialize (Hall j ltac:(lia)). lia.
  - reflexivity.
Qed.

Lemma extracted_json_is_first_balanced_group_witness :
  (find_char "{"%char "say {a{b}c} x}" = None /\
   _extract_json_from_text Samples.inert_library "say {a{b}c} x}" = ONone) \/
  (exists start,
     find_char "{"%char "say {a{b}c} x}" = Some start /\
     (forall j, (1 <= j)%nat ->
                (start + j <= String.length "say {a{b}c} x}")%nat ->
                (1 <= brace_balance (substring start j "say {a{b}c} x}"))%Z) /\
     _extract_json_from_text Samples.inert_library "say {a{b}c} x}" = ONone) \/
  exists start n candidate,
    find_char "{"%char "say {a{b}c} x}" = Some start /\
    (2 <= n)%nat /\ (start + n <= String.length "say {a{b}c} x}")%nat /\
    candidate = substring start n "say {a{b}c} x}" /\
    String.get 0 candidate = Some "{"%char /\
    String.get (n - 1) candidate = Some "}"%char /\
    brace_balance candidate = 0%Z /\
    (forall j, (1 <= j < n)%nat ->
               (1 <= brace_balance (substring start j "say {a{b}c} x}"))%Z) /\
    _extract_json_from_text Samples.inert_library "say {a{b}c} x}"
    = match json_loads Samples.inert_library
              (strip (re_sub Samples.inert_library ",\s*]" "]"
                        (re_sub Samples.inert_library ",\s*}" "}" candidate)))
      with
      | Some v => v
      | None => ONone
      end.
Proof.
  apply (extracted_json_is_first_balanced_group Samples.inert_library
           "say {a{b}c} x}"); [discriminate | reflexivity].
Defined.

(** ** charts: the degree label *)

Lemma int_nonneg (x : Q) : 0 <= x -> Py.int x = Qfloor x.
Proof.
  intros H. unfold Py.int. destruct x as [n d]. cbn [Qnum Qden Qfloor].
  apply Z.quot_div_nonneg; [|reflexivity].
  unfold Qle in H. cbn in H. lia.
Qed.

(** Rounding moves a number by at most one half. *)
Lemma round_half_even_near (q : Q) :
  inject_Z (Py.round_half_even q) - (1 # 2) <= q /\
  q <= inject_Z (Py.round_half_even q) + (1 # 2).
Proof.
  unfold Py.round_half_even.
  pose proof (Qfloor_le q) as L. pose proof (Qlt_floor q) as U.
  rewrite inject_Z_plus in U. change (inject_Z 1) with 1 in U.
  destruct (q - inject_Z (Qfloor q) ?= 1 # 2) eqn:C.
  - apply Qeq_alt in C. destruct (Z.even (Qfloor q));
      [|rewrite inject_Z_plus; change (inject_Z 1) with 1]; split; lra.
  - apply Qlt_alt in C. split; lra.
  - apply Qgt_alt in C. rewrite inject_Z_plus. change (inject_Z 1) with 1.
    split; lra.
Qed.

Lemma round_half_even_60 (q : Q) :
  0 <= q -> q < 60 ->
  (0 <= Py.round_half_even q <= 60)%Z /\
  (Py.round_half_even q = 60%Z <-> 119 # 2 <= q).
Proof.
  intros H0 H1.
  destruct (round_half_even_near q) as [N1 N2].
  assert (B : (0 <= Py.round_half_even q <= 60)%Z).
  { split.
    - assert (A : inject_Z (-1) < inject_Z (Py.round_half_even q))
        by (change (inject_Z (-1)) with (-1); lra).
      rewrite <- Zlt_Qlt in A. lia.
    - assert (A : inject_Z (Py.round_half_even q) < inject_Z 61)
        by (change (inject_Z 61) with 61; lra).
      rewrite <- Zlt_Qlt in A. lia. }
  split; [exact B|]. split.
  - intros E. rewrite E in N1. change (inject_Z 60) with 60 in N1. lra.
  - intros H.
    assert (F : Qfloor q = 59%Z).
    { rewrite <- (floor_div_unique q 1 59); [apply Qfloor_comp; field | reflexivity | |];
        change (inject_Z 59) with 59; lra. }
    unfold Py.round_half_even. rewrite F. change (inject_Z 59) with 59.
    destruct (q - 59 ?= 1 # 2) eqn:C; [reflexivity | | reflexivity].
    apply Qlt_alt in C. lra.
Qed.

(** X21: for a degree value [deg >= 0], [_deg_min_str] prints the whole
    degrees [floor(deg)] and the minutes [round((deg - floor(deg)) * 60)],
    which lie in 0..60: the minutes are 60, and are not carried into the
    degrees, exactly when the fractional part is at least 119/120 (59.5
    minutes).  For a degree within a sign the label can therefore read up
    to 29 degrees 60 minutes. *)
Theorem degree_label_minutes (deg : Q) :
  0 <= deg ->
  fst (Renderer.deg_min deg) = Qfloor deg /\
  (0 <= snd (Renderer.deg_min deg) <= 60)%Z /\
  (snd (Renderer.deg_min deg) = 60%Z <->
   119 # 120 <= deg - inject_Z (Qfloor deg)) /\
  (snd (Renderer.deg_min deg) = 60%Z ->
   Renderer._deg_min_str deg
   = (Py.str_int (Qfloor deg) ++ Renderer.degree_bytes ++ "60'")%string) /\
  (deg < 30 -> (0 <= fst (Renderer.deg_min deg) <= 29)%Z).
Proof.
  intros H0.
  pose proof (Qfloor_le deg) as L. pose proof (Qlt_floor deg) as U.
  rewrite inject_Z_plus in U. change (inject_Z 1) with 1 in U.
  unfold Renderer.deg_min, Renderer._deg_min_str, Renderer.deg_min.
  cbn [fst snd]. rewrite (int_nonneg deg H0).
  destruct (round_half_even_60 ((deg - inject_Z (Qfloor deg)) * 60))
    as (B & I); [lra | lra |].
  split; [reflexivity|]. split; [exact B|]. split; [|split].
  - rewrite I. split; intros; lra.
  - intros ->. reflexivity.
  - intros H30.
    assert (F0 : (Qfloor 0 <= Qfloor deg)%Z) by (now apply Qfloor_resp_le).
    assert (A : inject_Z (Qfloor deg) < inject_Z 30)
      by (change (inject_Z 30) with 30; lra).
    rewrite <- Zlt_Qlt in A. change (Qfloor 0) with 0%Z in F0. lia.
Qed.

Lemma degree_label_minutes_witness :
  fst (Renderer.deg_min (29995 # 1000)) = Qfloor (29995 # 1000) /\
  (0 <= snd (Renderer.deg_min (29995 # 1000)) <= 60)%Z /\
  (snd (Renderer.deg_min (29995 # 1000)) = 60%Z <->
   119 # 120 <= (29995 # 1000) - inject_Z (Qfloor (29995 # 1000))) /\
  (snd (Renderer.deg_min (29995 # 1000)) = 60%Z ->
   Renderer._deg_min_str (29995 # 1000)
   = (Py.str_int (Qfloor (29995 # 1000)) ++ Renderer.degree_bytes ++ "60'")%string) /\
  ((29995 # 1000) < 30 -> (0 <= fst (Renderer.deg_min (29995 # 1000)) <= 29)%Z).
Proof.
  apply (degree_label_minutes (29995 # 1000)). discriminate.
Defined.

(** ** charts: the sign of the ASC marker *)

Lemma int_of_eq_integer (x : Q) (z : Z) : x == inject_Z z -> Py.int x = z.
Proof.
  intros E. unfold Py.int. unfold Qeq in E. cbn [inject_Z Qnum Qden] in E.
  rewrite Z.mul_1_r in E. rewrite E. apply Z.quot_mul. discriminate.
Qed.

Lemma mod_of_integer_12 (f : Z) :
  Py.mod_ (inject_Z f) 12 == inject_Z (f mod 12).
Proof.
  unfold Py.mod_. change 12 with (inject_Z 12) at 2.
  rewrite <- Zdiv_Qdiv. rewrite Z.mod_eq by discriminate.
  unfold Z.sub. rewrite inject_Z_plus, inject_Z_opp, inject_Z_mult.
  change (inject_Z 12) with 12. ring.
Qed.

Lemma asc_sign_formula (a : Q) :
  Renderer.asc_sign a = (Qfloor (a / 30) mod 12 + 1)%Z.
Proof.
  unfold Renderer.asc_sign, Py.floordiv.
  now rewrite (int_of_eq_integer _ _ (mod_of_integer_12 (Qfloor (a / 30)))).
Qed.

(** X22: for every ascendant value, also a negative one or one of 360 and
    more, the sign of the ASC marker lies in 1..12, so one of the twelve
    boxes always carries the marker; it is the sign
    [int(lon // 30) + 1] that [get_rasi_chart] gives a planet at the
    ascendant reduced modulo 360, and for an ascendant in [[0, 360)] it is
    [floor(asc/30) + 1]. *)
Theorem asc_marker_sign (a : Q) :
  (1 <= Renderer.asc_sign a <= 12)%Z /\
  Renderer.asc_sign a
  = (Py.int (Py.floordiv (Py.mod_ a 360) 30) + 1)%Z /\
  Renderer.asc_sign (a + 360) = Renderer.asc_sign a /\
  (0 <= a -> a < 360 -> Renderer.asc_sign a = (Qfloor (a / 30) + 1)%Z).
Proof.
  rewrite !asc_sign_formula, int_floordiv.
  pose proof (Z.mod_pos_bound (Qfloor (a / 30)) 12 ltac:(reflexivity)) as B.
  split; [lia|]. split; [|split].
  - f_equal.
    assert (E : Qfloor (Py.mod_ a 360 / 30)
                = (Qfloor (a / 30) + - (12 * Qfloor (a / 360)))%Z).
    { rewrite <- floor_add_integer. apply Qfloor_comp.
      unfold Py.mod_. rewrite inject_Z_opp, inject_Z_mult.
      change (inject_Z 12) with 12. field. }
    destruct (mod_bounds a 360) as [M0 M1]; [reflexivity|].
    assert (R : (0 <= Qfloor (Py.mod_ a 360 / 30) <= 12 - 1)%Z).
    { apply floor_div_range; [reflexivity | exact M0 |].
      change (inject_Z 12) with 12. lra. }
    rewrite E in R |- *.
    symmetry. apply (Z.mod_unique _ 12 (Qfloor (a / 360))); lia.
  - f_equal.
    assert (E : Qfloor ((a + 360) / 30) = (Qfloor (a / 30) + 12)%Z).
    { rewrite <- floor_add_integer. apply Qfloor_comp.
      change (inject_Z 12) with 12. field. }
    rewrite E, <- Zplus_mod_idemp_r, Z.mod_same by discriminate.
    now rewrite Z.add_0_r.
  - intros H0 H1. f_equal. apply Z.mod_small.
    assert (R : (0 <= Qfloor (a / 30) <= 12 - 1)%Z).
    { apply floor_div_range; [reflexivity | exact H0 |].
      change (inject_Z 12) with 12. lra. }
    lia.
Qed.

(** ** charts: planets are grouped by sign *)

Lemma box_append_fresh (signs : list Z) (f : Z -> list (string * Q))
  (r : Z) (x : string * Q) :
  ~ In r signs ->
  Renderer.box_append (map (fun s => (s, f s)) signs) r x = None.
Proof.
  induction signs as [|s signs IH]; cbn [map Renderer.box_append In];
    intros H; [reflexivity|].
  destruct (Z.eqb_spec s r) as [->|_]; [exfalso; apply H; now left|].
  rewrite IH; [reflexivity|]. intros F; apply H; now right.
Qed.

Lemma box_append_found (signs : list Z) (f : Z -> list (string * Q))
  (r : Z) (x : string * Q) :
  NoDup signs -> In r signs ->
  Renderer.box_append (map (fun s => (s, f s)) signs) r x
  = Some (map (fun s => (s, if (s =? r)%Z then f s ++ [x] else f s)) signs).
Proof.
  induction signs as [|s signs IH]; intros N H; [destruct H|].
  inversion N as [|? ? Hs N']; subst.
  cbn [map Renderer.box_append].
  destruct (Z.eqb_spec s r) as [->|Hne].
  - f_equal. f_equal. apply map_ext_in. intros s' Hs'.
    destruct (Z.eqb_spec s' r) as [->|_]; [contradiction | reflexivity].
  - destruct H as [->|H]; [contradiction|].
    rewrite (IH N' H). reflexivity.
Qed.

Lemma planets_in_cons (s : Z) (p : string) (i : planet_info)
  (ps : list (string * planet_info)) :
  Renderer.planets_in s ((p, i) :: ps)
  = (if (Renderer.sign_of i =? s)%Z then [(p, Renderer.deg_of i)] else [])
    ++ Renderer.planets_in s ps.
Proof. reflexivity. Qed.

Lemma fill_boxes_some (signs : list Z) (ps : list (string * planet_info)) :
  NoDup signs ->
  Forall (fun pi => In (Renderer.sign_of (snd pi)) signs) ps ->
  forall f,
    Renderer.fill_boxes ps (map (fun s => (s, f s)) signs)
    = Some (map (fun s => (s, f s ++ Renderer.planets_in s ps)) signs).
Proof.
  intros N HF. induction HF as [|[p i] ps Hin _ IH]; intros f.
  - cbn [Renderer.fill_boxes]. f_equal.
    apply map_ext. intros s. cbn. now rewrite app_nil_r.
  - cbn [Renderer.fill_boxes]. cbn [snd] in Hin.
    rewrite (box_append_found signs f _ _ N Hin), IH.
    f_equal. apply map_ext. intros s.
    rewrite planets_in_cons. rewrite (Z.eqb_sym (Renderer.sign_of i) s).
    destruct (s =? Renderer.sign_of i)%Z;
      [rewrite <- app_assoc|]; reflexivity.
Qed.

Lemma fill_boxes_none (signs : list Z) (ps : list (string * planet_info))
  (p : string) (i : planet_info) :
  NoDup signs -> In (p, i) ps -> ~ In (Renderer.sign_of i) signs ->
  forall f, Renderer.fill_boxes ps (map (fun s => (s, f s)) signs) = None.
Proof.
  intros N Hin Hn. induction ps as [|[p' i'] ps IH]; intros f; [destruct Hin|].
  cbn [Renderer.fill_boxes].
  destruct (in_dec Z.eq_dec (Renderer.sign_of i') signs) as [Hi|Ho].
  - rewrite (box_append_found signs f _ _ N Hi).
    destruct Hin as [Heq|Hin'].
    + injection Heq as -> ->. contradiction.
    + apply (IH Hin').
  - now rewrite (box_append_fresh signs f _ _ Ho).
Qed.

(** Either every planet has a box or some planet has none. *)
Lemma boxes_decide (signs : list Z) (ps : list (string * planet_info)) :
  Forall (fun pi => In (Renderer.sign_of (snd pi)) signs) ps \/
  exists p i, In (p, i) ps /\ ~ In (Renderer.sign_of i) signs.
Proof.
  induction ps as [|[p i] ps [IH|(p' & i' & Hin & Hn)]].
  - left; constructor.
  - destruct (in_dec Z.eq_dec (Renderer.sign_of i) signs) as [Hin|Hout].
    + left. constructor; assumption.
    + right. exists p, i. split; [now left | exact Hout].
  - right. exists p', i'. split; [now right | exact Hn].
Qed.

Lemma twelve_signs (r : Z) :
  In r [1; 2; 3; 4; 5; 6; 7; 8; 9; 10; 11; 12]%Z <-> (1 <= r <= 12)%Z.
Proof. cbn [In]. lia. Qed.

Lemma twelve_signs_nodup : NoDup [1; 2; 3; 4; 5; 6; 7; 8; 9; 10; 11; 12]%Z.
Proof.
  repeat (constructor; [cbn [In]; lia|]). constructor.
Qed.

(** X23: the loop that maps planets to signs raises (a [KeyError]) exactly
    when some planet's sign, stored or recomputed from the longitude, is
    outside 1..12.  Otherwise it returns the twelve boxes 1..12 in order,
    and box [s] lists, in chart order, exactly the planets whose sign is
    [s], each with its degree. *)
Theorem planets_are_grouped_by_sign (r : rasi_chart) :
  (Renderer.sign_to_planets r = None <->
   exists p i, In (p, i) (Yogas.planets_or_empty r) /\
               ~ (1 <= Renderer.sign_of i <= 12)%Z) /\
  (forall boxes,
     Renderer.sign_to_planets r = Some boxes ->
     boxes = map (fun s => (s, Renderer.planets_in s (Yogas.planets_or_empty r)))
                 [1; 2; 3; 4; 5; 6; 7; 8; 9; 10; 11; 12]%Z).
Proof.
  unfold Renderer.sign_to_planets, Renderer.empty_boxes.
  set (ps := Yogas.planets_or_empty r).
  set (signs := [1; 2; 3; 4; 5; 6; 7; 8; 9; 10; 11; 12]%Z).
  destruct (boxes_decide signs ps) as [HF|(p & i & Hin & Hn)].
  - rewrite (fill_boxes_some signs ps twelve_signs_nodup HF (fun _ => [])).
    split; [split|].
    + discriminate.
    + intros (p & i & Hin & Hn). exfalso. apply Hn.
      rewrite Forall_forall in HF. specialize (HF (p, i) Hin).
      now apply twelve_signs in HF.
    + intros boxes H. injection H as <-. reflexivity.
  - rewrite (fill_boxes_none signs ps p i twelve_signs_nodup Hin Hn
               (fun _ => [])).
    split; [split|].
    + intros _. exists p, i. split; [exact Hin|].
      intros R. apply Hn. now apply twelve_signs.
    + reflexivity.
    + discriminate.
Qed.






(** ** charts: [_wrap_lines] *)

Import RendererSpec.

Lemma string_app_assoc (a b c : string) :
  ((a ++ b) ++ c = a ++ (b ++ c))%string.
Proof.
  induction a as [|x a IH]; [reflexivity|]. cbn. now rewrite IH.
Qed.

Lemma string_length_app (a b : string) :
  String.length (a ++ b) = (String.length a + String.length b)%nat.
Proof.
  induction a as [|x a IH]; [reflexivity|]. cbn. now rewrite IH.
Qed.

Lemma list_of_string_app (a b : string) :
  list_ascii_of_string (a ++ b)
  = (list_ascii_of_string a ++ list_ascii_of_string b)%list.
Proof.
  induction a as [|x a IH]; [reflexivity|]. cbn. now rewrite IH.
Qed.

Lemma lstrip_ws_id (l : list ascii) : starts_ok l -> Renderer.lstrip_ws l = l.
Proof.
  destruct l as [|c l]; [intros []|]. cbn. now intros ->.
Qed.

Lemma starts_ok_app (l m : list ascii) : starts_ok l -> starts_ok (l ++ m)%list.
Proof. destruct l; [intros []|]. now cbn. Qed.

Lemma strip_ws_clean (s : string) : clean s -> Renderer.strip_ws s = s.
Proof.
  intros [H1 H2]. unfold Renderer.strip_ws.
  rewrite (lstrip_ws_id _ H1), (lstrip_ws_id _ H2), rev_involutive.
  apply string_of_list_ascii_of_string.
Qed.

Lemma clean_nonempty (s : string) : clean s -> s <> EmptyString.
Proof. intros [H _] ->. exact H. Qed.

Lemma clean_join (a m b : string) : clean a -> clean b -> clean (a ++ m ++ b).
Proof.
  intros [A1 _] [_ B2]. split.
  - rewrite list_of_string_app. now apply starts_ok_app.
  - rewrite <- string_app_assoc, list_of_string_app, rev_app_distr.
    now apply starts_ok_app.
Qed.

Lemma word_clean (w : string) : Renderer.word w = true -> clean w.
Proof.
  unfold Renderer.word, clean. destruct w as [|c w]; [discriminate|].
  set (l := list_ascii_of_string (String c w)).
  assert (Hl : l <> []) by (unfold l; cbn; discriminate).
  clearbody l. intros H.
  assert (F : forall x, In x l -> Renderer.is_space x = false).
  { intros x Hx. rewrite forallb_forall in H. specialize (H x Hx).
    now destruct (Renderer.is_space x). }
  split.
  - destruct l as [|x l]; [congruence|]. apply F. now left.
  - destruct (rev l) as [|x r] eqn:E.
    + apply (f_equal (@rev ascii)) in E. rewrite rev_involutive in E.
      cbn in E. congruence.
    + cbn. apply F. apply in_rev. rewrite E. now left.
Qed.

Lemma strip_ws_first_word (w : string) :
  Renderer.word w = true -> Renderer.strip_ws ("" ++ " " ++ w) = w.
Proof.
  intros H. change (Renderer.strip_ws w = w).
  apply strip_ws_clean, word_clean, H.
Qed.

Lemma concat_snoc (g : list string) (w : string) :
  g <> [] ->
  String.concat " " (g ++ [w]) = (String.concat " " g ++ " " ++ w)%string.
Proof.
  induction g as [|x g IH]; [congruence|]. intros _.
  destruct g as [|y g]; [reflexivity|].
  change (String.concat " " ((x :: y :: g) ++ [w]))
    with (x ++ " " ++ String.concat " " ((y :: g) ++ [w]))%string.
  rewrite IH by discriminate.
  change (String.concat " " (x :: y :: g))
    with (x ++ " " ++ String.concat " " (y :: g))%string.
  now rewrite !string_app_assoc.
Qed.

Lemma wrap_loop_spec (south : bool) (max_chars : Z) (ws : list string) :
  forallb Renderer.word ws = true ->
  forall (gcur : list string) (lines : list string),
    gcur <> [] -> clean (String.concat " " gcur) -> fits max_chars gcur ->
    exists G gc,
      Renderer.wrap_loop south max_chars ws (String.concat " " gcur) lines
      = ((lines ++ map (String.concat " ") G)%list, String.concat " " gc) /\
      (List.concat G ++ gc = gcur ++ ws)%list /\
      String.concat " " gc <> EmptyString /\
      Forall (fun g => String.concat " " g <> EmptyString /\ fits max_chars g) G /\
      fits max_chars gc.
Proof.
  induction ws as [|w ws IH]; intros Hw gcur lines Hne Hc Hf.
  - exists [], gcur. cbn [Renderer.wrap_loop map List.concat app].
    rewrite !app_nil_r. repeat split; auto. now apply clean_nonempty.
  - cbn [forallb] in Hw. apply andb_prop in Hw. destruct Hw as [Hw Hws].
    cbn [Renderer.wrap_loop].
    assert (Hgap : Renderer.gap south (String.concat " " gcur) = 1%nat).
    { unfold Renderer.gap. destruct south; [reflexivity|].
      destruct (String.concat " " gcur) eqn:E; [|reflexivity].
      now apply clean_nonempty in Hc. }
    rewrite Hgap.
    destruct (Z.leb_spec
                (Z.of_nat (String.length (String.concat " " gcur)
                           + String.length w + 1)) max_chars) as [Hle|Hgt].
    + assert (Hcl : clean (String.concat " " gcur ++ " " ++ w))
        by (apply clean_join; [exact Hc | now apply word_clean]).
      rewrite (strip_ws_clean _ Hcl), <- (concat_snoc gcur w Hne).
      destruct (IH Hws (gcur ++ [w])%list lines) as (G & gc & E & HC & Hg & HG & Hgc).
      * now destruct gcur.
      * now rewrite (concat_snoc gcur w Hne).
      * left. rewrite (concat_snoc gcur w Hne), !string_length_app.
        cbn [String.length]. lia.
      * exists G, gc. rewrite E, HC, <- app_assoc. repeat split; auto.
    + destruct (IH Hws [w] (lines ++ [String.concat " " gcur])%list)
        as (G & gc & E & HC & Hg & HG & Hgc).
      * discriminate.
      * now apply word_clean.
      * right. cbn. lia.
      * exists (gcur :: G), gc. cbn [String.concat] in E. rewrite E.
        cbn [map List.concat]. rewrite <- !app_assoc, HC. cbn [app].
        repeat split; auto.
        constructor; [|exact HG]. split; [now apply clean_nonempty | exact Hf].
Qed.

(** X25: [_wrap_lines] on the words of [text.split()], in both renderers.
    The lines are the words in their order, cut into groups and joined by
    one blank: no word is lost, repeated or reordered.  A line of two or
    more words has at most [max_chars] characters (a single word longer than
    that gets a line of its own).  The first line is empty exactly when the
    first word does not pass the line test, which happens when it is longer
    than [max_chars] (in the south renderer: than [max_chars - 1]); no
    other line is empty. *)
Theorem wrapped_lines_keep_the_words (south : bool) (max_chars : Z)
  (words : list string) :
  forallb Renderer.word words = true ->
  exists groups,
    Renderer._wrap_lines south words max_chars
    = map (String.concat " ") groups /\
    List.concat groups = words /\
    (forall g, In g groups ->
       (Z.of_nat (String.length (String.concat " " g)) <= max_chars)%Z \/
       (List.length g <= 1)%nat) /\
    (In EmptyString (Renderer._wrap_lines south words max_chars) <->
     exists w ws, words = w :: ws /\
       (max_chars < Z.of_nat (String.length w + Renderer.gap south ""))%Z) /\
    (forall l, In l (tl (Renderer._wrap_lines south words max_chars)) ->
               l <> EmptyString).
Proof.
  intros Hw. destruct words as [|w ws].
  - exists []. cbn. repeat split; try tauto.
    intros (w & ws & E & _). discriminate.
  - cbn [forallb] in Hw. apply andb_prop in Hw. destruct Hw as [Hw1 Hws].
    assert (Hcw : clean (String.concat " " [w])) by now apply word_clean.
    assert (Hfw : fits max_chars [w]) by (right; cbn; lia).
    assert (Hnw : [w] <> []) by discriminate.
    unfold Renderer._wrap_lines. cbn [Renderer.wrap_loop].
    change (String.length "") with 0%nat. cbn [Nat.add].
    assert (Hall : forall G gc,
              Forall (fun g => String.concat " " g <> EmptyString
                               /\ fits max_chars g) G ->
              String.concat " " gc <> EmptyString ->
              ~ In EmptyString (map (String.concat " ") (G ++ [gc]))).
    { intros G gc HG Hg Hin. apply in_map_iff in Hin.
      destruct Hin as (g & Eg & Hin). apply in_app_or in Hin.
      destruct Hin as [Hin|[<-|[]]]; [|now apply Hg].
      rewrite Forall_forall in HG. now apply (HG g Hin). }
    destruct (Z.leb_spec
                (Z.of_nat (String.length w + Renderer.gap south "")) max_chars)
      as [Hle|Hgt].
    + rewrite (strip_ws_first_word w Hw1).
      destruct (wrap_loop_spec south max_chars ws Hws [w] [] Hnw Hcw Hfw)
        as (G & gc & E & HC & Hg & HG & Hgc).
      cbn [String.concat] in E. rewrite E. cbn [app].
      replace (match String.concat " " gc with
               | EmptyString => map (String.concat " ") G
               | String _ _ =>
                   (map (String.concat " ") G ++ [String.concat " " gc])%list
               end)
        with (map (String.concat " ") (G ++ [gc]))
        by (rewrite map_app; cbn [map];
            destruct (String.concat " " gc); [congruence | reflexivity]).
      exists (G ++ [gc])%list. split; [reflexivity|]. split; [|split; [|split]].
      * rewrite concat_app. cbn [List.concat]. now rewrite app_nil_r.
      * intros g Hin. apply in_app_or in Hin. destruct Hin as [Hin|[<-|[]]].
        -- rewrite Forall_forall in HG. now apply (HG g Hin).
        -- exact Hgc.
      * split.
        -- intros Hin. now apply Hall in Hin.
        -- intros (w' & ws' & E' & Hlt). injection E' as <- <-. lia.
      * intros l Hin -> . apply (Hall G gc HG Hg).
        destruct (map (String.concat " ") (G ++ [gc])); [destruct Hin|].
        now right.
    + destruct (wrap_loop_spec south max_chars ws Hws [w] ([] ++ [EmptyString])
                  Hnw Hcw Hfw) as (G & gc & E & HC & Hg & HG & Hgc).
      cbn [String.concat] in E. rewrite E. cbn [app].
      replace (match String.concat " " gc with
               | EmptyString => EmptyString :: map (String.concat " ") G
               | String _ _ =>
                   EmptyString
                   :: (map (String.concat " ") G ++ [String.concat " " gc])%list
               end)
        with (map (String.concat " ") ([] :: G ++ [gc]))
        by (cbn [map]; rewrite map_app; cbn [map];
            destruct (String.concat " " gc); [congruence | reflexivity]).
      exists ([] :: G ++ [gc])%list. split; [reflexivity|].
      split; [|split; [|split]].
      * cbn [List.concat app]. rewrite concat_app. cbn [List.concat].
        now rewrite app_nil_r.
      * intros g [<-|Hin]; [right; cbn; lia|].
        apply in_app_or in Hin. destruct Hin as [Hin|[<-|[]]].
        -- rewrite Forall_forall in HG. now apply (HG g Hin).
        -- exact Hgc.
      * split.
        -- intros _. exists w, ws. split; [reflexivity | exact Hgt].
        -- intros _. now left.
      * cbn [map tl]. intros l Hin ->. now apply (Hall G gc HG Hg).
Qed.

Lemma wrapped_lines_keep_the_words_witness :
  forallb Renderer.word ["Jupiter"; "12"; "Saturn"]%string = true /\
  exists groups,
    Renderer._wrap_lines false ["Jupiter"; "12"; "Saturn"]%string 10
    = map (String.concat " ") groups /\
    List.concat groups = ["Jupiter"; "12"; "Saturn"]%string /\
    (forall g, In g groups ->
       (Z.of_nat (String.length (String.concat " " g)) <= 10)%Z \/
       (List.length g <= 1)%nat) /\
    (In EmptyString
        (Renderer._wrap_lines false ["Jupiter"; "12"; "Saturn"]%string 10) <->
     exists w ws, ["Jupiter"; "12"; "Saturn"]%string = w :: ws /\
       (10 < Z.of_nat (String.length w + Renderer.gap false ""))%Z) /\
    (forall l,
       In l (tl (Renderer._wrap_lines false
                   ["Jupiter"; "12"; "Saturn"]%string 10)) ->
       l <> EmptyString).
Proof.
  split; [reflexivity|].
  apply (wrapped_lines_keep_the_words false 10
           ["Jupiter"; "12"; "Saturn"]%string).
  reflexivity.
Defined.
